(** * Bertini 2: fixed-precision path tracker and product differentiation

    A shallow embedding of

    - [core/include/bertini2/tracking/fixed_precision_tracker.hpp]
      (class [FixedPrecisionTracker<D>]), in [Module Tracking];
    - [core/src/function_tree/operators/arithmetic.cpp]
      ([SumOperator], [MultOperator] and [IntegerPowerOperator]
      differentiation), in [Module FunctionTree].

    Member functions of the tracker are [const] in C++ but write to [mutable]
    members; here each of them is a computation in a state monad over the
    record of those members. *)

From Stdlib Require Import List Bool NArith ZArith QArith Qabs Lia Lqa PrimFloat Uint63.
Import ListNotations.

Set Implicit Arguments.

(* ================================================================== *)
(** ** The tracker                                                     *)
(* ================================================================== *)

Module Tracking.

(** [TrackerTraits<D>]: the real type [RT] and the complex type [CT] of a
    tracker, with the operations the class body applies to them.  [RT_ltb] is
    [operator<], [RT_of_unsigned] the implicit conversion of an [unsigned]
    operand in a mixed division, [CT_abs] is [abs] on a complex number. *)
Class TrackerTraits : Type := {
  RT : Type;
  CT : Type;
  RT_zero : RT;
  RT_mul : RT -> RT -> RT;
  RT_div : RT -> RT -> RT;
  RT_ltb : RT -> RT -> bool;
  RT_of_unsigned : N -> RT;
  CT_add : CT -> CT -> CT;
  CT_sub : CT -> CT -> CT;
  CT_abs : CT -> RT
}.

(** [std::min(a, b)]: returns [b] when [b < a], and [a] otherwise. *)
Definition RT_min `{TrackerTraits} (a b : RT) : RT :=
  if RT_ltb b a then b else a.


(** [enum class SuccessCode].  The enumeration is declared outside these
    files; the four enumerators the tracker names are kept apart and every
    other one is [OtherCode] with its numeric value. *)
Inductive SuccessCode : Type :=
| Success
| GoingToInfinity
| MaxNumStepsTaken
| MinStepSizeReached
| OtherCode (tag : N).

Definition SuccessCode_eqb (a b : SuccessCode) : bool :=
  match a, b with
  | Success, Success => true
  | GoingToInfinity, GoingToInfinity => true
  | MaxNumStepsTaken, MaxNumStepsTaken => true
  | MinStepSizeReached, MinStepSizeReached => true
  | OtherCode m, OtherCode n => N.eqb m n
  | _, _ => false
  end.

Section Tracker.

Context {TT : TrackerTraits}.

Definition Vec (A : Type) : Type := list A.

(** [config::Stepping], the members this class reads. *)
Record Stepping : Type := {
  initial_step_size : RT;
  min_step_size : RT;
  max_num_steps : N;
  min_num_steps : N;
  step_size_fail_factor : RT
}.

(** [config::Newton]. *)
Record Newton : Type := {
  min_num_newton_iterations : N;
  max_num_newton_iterations : N
}.

(** The notifications sent through [NotifyObservers], with the arguments
    the call sites pass besides the tracker itself. *)
Inductive Event : Type :=
| Initializing (start_time end_time : CT) (start_point : Vec CT)
| TrackingEnded
| NewStep
| FirstStepPredictorMatrixSolveFailure
| SuccessfulPredict (predicted_space : Vec CT)
| CorrectorMatrixSolveFailure
| SuccessfulCorrect (tentative_next_space : Vec CT)
| SuccessfulStep
| FailedStep
| InfinitePathTruncation.

(** The [mutable] members of [Tracker<FixedPrecisionTracker<D>>] that the
    class body reads or writes.  [observed_] is the sequence of events handed
    to the observers so far, most recent first. *)
Record Tracker : Type := {
  stepping_config_ : Stepping;
  newton_config_ : Newton;
  tracking_tolerance_ : RT;
  reinitialize_stepsize_ : bool;
  frequency_of_CN_estimation_ : N;
  current_time_ : CT;
  delta_t_ : CT;
  current_stepsize_ : RT;
  next_stepsize_ : RT;
  current_space_ : Vec CT;
  temporary_space_ : Vec CT;
  tentative_space_ : Vec CT;
  condition_number_estimate_ : RT;
  num_successful_steps_taken_ : N;
  num_successful_steps_since_stepsize_increase_ : N;
  num_steps_since_last_condition_number_computation_ : N;
  observed_ : list Event
}.

(** *** Field updates *)

Definition with_current_time_ (v : CT) (t : Tracker) : Tracker :=
  {| stepping_config_ := stepping_config_ t;
     newton_config_ := newton_config_ t;
     tracking_tolerance_ := tracking_tolerance_ t;
     reinitialize_stepsize_ := reinitialize_stepsize_ t;
     frequency_of_CN_estimation_ := frequency_of_CN_estimation_ t;
     current_time_ := v;
     delta_t_ := delta_t_ t;
     current_stepsize_ := current_stepsize_ t;
     next_stepsize_ := next_stepsize_ t;
     current_space_ := current_space_ t;
     temporary_space_ := temporary_space_ t;
     tentative_space_ := tentative_space_ t;
     condition_number_estimate_ := condition_number_estimate_ t;
     num_successful_steps_taken_ := num_successful_steps_taken_ t;
     num_successful_steps_since_stepsize_increase_ :=
       num_successful_steps_since_stepsize_increase_ t;
     num_steps_since_last_condition_number_computation_ :=
       num_steps_since_last_condition_number_computation_ t;
     observed_ := observed_ t |}.

Definition with_current_stepsize_ (v : RT) (t : Tracker) : Tracker :=
  {| stepping_config_ := stepping_config_ t;
     newton_config_ := newton_config_ t;
     tracking_tolerance_ := tracking_tolerance_ t;
     reinitialize_stepsize_ := reinitialize_stepsize_ t;
     frequency_of_CN_estimation_ := frequency_of_CN_estimation_ t;
     current_time_ := current_time_ t;
     delta_t_ := delta_t_ t;
     current_stepsize_ := v;
     next_stepsize_ := next_stepsize_ t;
     current_space_ := current_space_ t;
     temporary_space_ := temporary_space_ t;
     tentative_space_ := tentative_space_ t;
     condition_number_estimate_ := condition_number_estimate_ t;
     num_successful_steps_taken_ := num_successful_steps_taken_ t;
     num_successful_steps_since_stepsize_increase_ :=
       num_successful_steps_since_stepsize_increase_ t;
     num_steps_since_last_condition_number_computation_ :=
       num_steps_since_last_condition_number_computation_ t;
     observed_ := observed_ t |}.

Definition with_next_stepsize_ (v : RT) (t : Tracker) : Tracker :=
  {| stepping_config_ := stepping_config_ t;
     newton_config_ := newton_config_ t;
     tracking_tolerance_ := tracking_tolerance_ t;
     reinitialize_stepsize_ := reinitialize_stepsize_ t;
     frequency_of_CN_estimation_ := frequency_of_CN_estimation_ t;
     current_time_ := current_time_ t;
     delta_t_ := delta_t_ t;
     current_stepsize_ := current_stepsize_ t;
     next_stepsize_ := v;
     current_space_ := current_space_ t;
     temporary_space_ := temporary_space_ t;
     tentative_space_ := tentative_space_ t;
     condition_number_estimate_ := condition_number_estimate_ t;
     num_successful_steps_taken_ := num_successful_steps_taken_ t;
     num_successful_steps_since_stepsize_increase_ :=
       num_successful_steps_since_stepsize_increase_ t;
     num_steps_since_last_condition_number_computation_ :=
       num_steps_since_last_condition_number_computation_ t;
     observed_ := observed_ t |}.

Definition with_current_space_ (v : Vec CT) (t : Tracker) : Tracker :=
  {| stepping_config_ := stepping_config_ t;
     newton_config_ := newton_config_ t;
     tracking_tolerance_ := tracking_tolerance_ t;
     reinitialize_stepsize_ := reinitialize_stepsize_ t;
     frequency_of_CN_estimation_ := frequency_of_CN_estimation_ t;
     current_time_ := current_time_ t;
     delta_t_ := delta_t_ t;
     current_stepsize_ := current_stepsize_ t;
     next_stepsize_ := next_stepsize_ t;
     current_space_ := v;
     temporary_space_ := temporary_space_ t;
     tentative_space_ := tentative_space_ t;
     condition_number_estimate_ := condition_number_estimate_ t;
     num_successful_steps_taken_ := num_successful_steps_taken_ t;
     num_successful_steps_since_stepsize_increase_ :=
       num_successful_steps_since_stepsize_increase_ t;
     num_steps_since_last_condition_number_computation_ :=
       num_steps_since_last_condition_number_computation_ t;
     observed_ := observed_ t |}.

Definition with_temporary_space_ (v : Vec CT) (t : Tracker) : Tracker :=
  {| stepping_config_ := stepping_config_ t;
     newton_config_ := newton_config_ t;
     tracking_tolerance_ := tracking_tolerance_ t;
     reinitialize_stepsize_ := reinitialize_stepsize_ t;
     frequency_of_CN_estimation_ := frequency_of_CN_estimation_ t;
     current_time_ := current_time_ t;
     delta_t_ := delta_t_ t;
     current_stepsize_ := current_stepsize_ t;
     next_stepsize_ := next_stepsize_ t;
     current_space_ := current_space_ t;
     temporary_space_ := v;
     tentative_space_ := tentative_space_ t;
     condition_number_estimate_ := condition_number_estimate_ t;
     num_successful_steps_taken_ := num_successful_steps_taken_ t;
     num_successful_steps_since_stepsize_increase_ :=
       num_successful_steps_since_stepsize_increase_ t;
     num_steps_since_last_condition_number_computation_ :=
       num_steps_since_last_condition_number_computation_ t;
     observed_ := observed_ t |}.

Definition with_tentative_space_ (v : Vec CT) (t : Tracker) : Tracker :=
  {| stepping_config_ := stepping_config_ t;
     newton_config_ := newton_config_ t;
     tracking_tolerance_ := tracking_tolerance_ t;
     reinitialize_stepsize_ := reinitialize_stepsize_ t;
     frequency_of_CN_estimation_ := frequency_of_CN_estimation_ t;
     current_time_ := current_time_ t;
     delta_t_ := delta_t_ t;
     current_stepsize_ := current_stepsize_ t;
     next_stepsize_ := next_stepsize_ t;
     current_space_ := current_space_ t;
     temporary_space_ := temporary_space_ t;
     tentative_space_ := v;
     condition_number_estimate_ := condition_number_estimate_ t;
     num_successful_steps_taken_ := num_successful_steps_taken_ t;
     num_successful_steps_since_stepsize_increase_ :=
       num_successful_steps_since_stepsize_increase_ t;
     num_steps_since_last_condition_number_computation_ :=
       num_steps_since_last_condition_number_computation_ t;
     observed_ := observed_ t |}.

Definition with_condition_number_estimate_ (v : RT) (t : Tracker) : Tracker :=
  {| stepping_config_ := stepping_config_ t;
     newton_config_ := newton_config_ t;
     tracking_tolerance_ := tracking_tolerance_ t;
     reinitialize_stepsize_ := reinitialize_stepsize_ t;
     frequency_of_CN_estimation_ := frequency_of_CN_estimation_ t;
     current_time_ := current_time_ t;
     delta_t_ := delta_t_ t;
     current_stepsize_ := current_stepsize_ t;
     next_stepsize_ := next_stepsize_ t;
     current_space_ := current_space_ t;
     temporary_space_ := temporary_space_ t;
     tentative_space_ := tentative_space_ t;
     condition_number_estimate_ := v;
     num_successful_steps_taken_ := num_successful_steps_taken_ t;
     num_successful_steps_since_stepsize_increase_ :=
       num_successful_steps_since_stepsize_increase_ t;
     num_steps_since_last_condition_number_computation_ :=
       num_steps_since_last_condition_number_computation_ t;
     observed_ := observed_ t |}.

Definition with_num_successful_steps_taken_ (v : N) (t : Tracker) : Tracker :=
  {| stepping_config_ := stepping_config_ t;
     newton_config_ := newton_config_ t;
     tracking_tolerance_ := tracking_tolerance_ t;
     reinitialize_stepsize_ := reinitialize_stepsize_ t;
     frequency_of_CN_estimation_ := frequency_of_CN_estimation_ t;
     current_time_ := current_time_ t;
     delta_t_ := delta_t_ t;
     current_stepsize_ := current_stepsize_ t;
     next_stepsize_ := next_stepsize_ t;
     current_space_ := current_space_ t;
     temporary_space_ := temporary_space_ t;
     tentative_space_ := tentative_space_ t;
     condition_number_estimate_ := condition_number_estimate_ t;
     num_successful_steps_taken_ := v;
     num_successful_steps_since_stepsize_increase_ :=
       num_successful_steps_since_stepsize_increase_ t;
     num_steps_since_last_condition_number_computation_ :=
       num_steps_since_last_condition_number_computation_ t;
     observed_ := observed_ t |}.

Definition with_num_successful_steps_since_stepsize_increase_
    (v : N) (t : Tracker) : Tracker :=
  {| stepping_config_ := stepping_config_ t;
     newton_config_ := newton_config_ t;
     tracking_tolerance_ := tracking_tolerance_ t;
     reinitialize_stepsize_ := reinitialize_stepsize_ t;
     frequency_of_CN_estimation_ := frequency_of_CN_estimation_ t;
     current_time_ := current_time_ t;
     delta_t_ := delta_t_ t;
     current_stepsize_ := current_stepsize_ t;
     next_stepsize_ := next_stepsize_ t;
     current_space_ := current_space_ t;
     temporary_space_ := temporary_space_ t;
     tentative_space_ := tentative_space_ t;
     condition_number_estimate_ := condition_number_estimate_ t;
     num_successful_steps_taken_ := num_successful_steps_taken_ t;
     num_successful_steps_since_stepsize_increase_ := v;
     num_steps_since_last_condition_number_computation_ :=
       num_steps_since_last_condition_number_computation_ t;
     observed_ := observed_ t |}.

Definition with_num_steps_since_last_condition_number_computation_
    (v : N) (t : Tracker) : Tracker :=
  {| stepping_config_ := stepping_config_ t;
     newton_config_ := newton_config_ t;
     tracking_tolerance_ := tracking_tolerance_ t;
     reinitialize_stepsize_ := reinitialize_stepsize_ t;
     frequency_of_CN_estimation_ := frequency_of_CN_estimation_ t;
     current_time_ := current_time_ t;
     delta_t_ := delta_t_ t;
     current_stepsize_ := current_stepsize_ t;
     next_stepsize_ := next_stepsize_ t;
     current_space_ := current_space_ t;
     temporary_space_ := temporary_space_ t;
     tentative_space_ := tentative_space_ t;
     condition_number_estimate_ := condition_number_estimate_ t;
     num_successful_steps_taken_ := num_successful_steps_taken_ t;
     num_successful_steps_since_stepsize_increase_ :=
       num_successful_steps_since_stepsize_increase_ t;
     num_steps_since_last_condition_number_computation_ := v;
     observed_ := observed_ t |}.

Definition with_observed_ (v : list Event) (t : Tracker) : Tracker :=
  {| stepping_config_ := stepping_config_ t;
     newton_config_ := newton_config_ t;
     tracking_tolerance_ := tracking_tolerance_ t;
     reinitialize_stepsize_ := reinitialize_stepsize_ t;
     frequency_of_CN_estimation_ := frequency_of_CN_estimation_ t;
     current_time_ := current_time_ t;
     delta_t_ := delta_t_ t;
     current_stepsize_ := current_stepsize_ t;
     next_stepsize_ := next_stepsize_ t;
     current_space_ := current_space_ t;
     temporary_space_ := temporary_space_ t;
     tentative_space_ := tentative_space_ t;
     condition_number_estimate_ := condition_number_estimate_ t;
     num_successful_steps_taken_ := num_successful_steps_taken_ t;
     num_successful_steps_since_stepsize_increase_ :=
       num_successful_steps_since_stepsize_increase_ t;
     num_steps_since_last_condition_number_computation_ :=
       num_steps_since_last_condition_number_computation_ t;
     observed_ := v |}.

(** *** Member functions as state computations *)

Definition M (A : Type) : Type := Tracker -> A * Tracker.

Definition ret {A : Type} (a : A) : M A := fun t => (a, t).

Definition bind {A B : Type} (m : M A) (k : A -> M B) : M B :=
  fun t => let (a, t') := m t in k a t'.

Definition gets {A : Type} (f : Tracker -> A) : M A := fun t => (f t, t).

Definition assign (f : Tracker -> Tracker) : M unit := fun t => (tt, f t).

Notation "x <- m ;; k" := (bind m (fun x => k))
  (at level 61, m at next level, right associativity).
Notation "m ;; k" := (bind m (fun _ => k))
  (at level 61, right associativity).

(** [NotifyObservers(e)]: the observers receive the tracker by reference to
    [const] and the event is recorded; nothing else changes. *)
Definition NotifyObservers (e : Event) : M unit :=
  assign (fun t => with_observed_ (e :: observed_ t) t).

(** The free functions [bertini::tracking::Predict] and
    [bertini::tracking::Correct] are declared outside these files: they are
    parameters.  Each takes the values of the arguments of the call in the
    order of the call (an output reference contributes its value on entry)
    and returns the code together with the values left in the arguments it
    receives by non-const reference.  The arguments [predictor_choice_] and
    [tracked_system_], which no member function writes, are part of the
    parameter. *)
Variable tracking_Predict :
  Vec CT -> Vec CT -> CT -> CT -> RT -> N -> N -> RT ->
  SuccessCode * (Vec CT * RT * N).

Variable tracking_Correct :
  Vec CT -> Vec CT -> CT -> RT -> N -> N -> SuccessCode * Vec CT.

(** Modelled from the spec: [Tracker::SetStepSize] of [base_tracker.hpp],
    which is not among these files.  The spec has [UpdateStepsize] commit
    [next_step_size] as the new [current_step_size] and [Initialize] set
    [current_step_size], both of which the code does through this call. *)
Definition SetStepSize (new_stepsize : RT) : M unit :=
  assign (with_current_stepsize_ new_stepsize).

(** Modelled from the spec: [Tracker::ResetCounters] of [base_tracker.hpp],
    which is not among these files.  The spec has initialization reset all
    counters to zero; the counter of the base class that the data model
    names is the number of successful steps. *)
Definition Base_ResetCounters : M unit :=
  assign (with_num_successful_steps_taken_ 0%N).

(** Modelled from the spec: [Tracker::IncrementCountersFail] of
    [base_tracker.hpp], which is not among these files.  The spec has a
    failure leave the total count of successful steps untouched and names no
    other effect on the data model. *)
Definition Base_IncrementCountersFail : M unit := ret tt.

(** [void ResetCounters() const override] *)
Definition ResetCounters : M unit :=
  Base_ResetCounters ;;
  assign (with_num_successful_steps_since_stepsize_increase_ 0%N) ;;
  (* initialize to the frequency so guaranteed to compute it the first try *)
  assign (fun t => with_num_steps_since_last_condition_number_computation_
                     (frequency_of_CN_estimation_ t) t).

(** [SuccessCode TrackerLoopInitialization(start_time, end_time, start_point)] *)
Definition TrackerLoopInitialization
    (start_time end_time : CT) (start_point : Vec CT) : M SuccessCode :=
  NotifyObservers (Initializing start_time end_time start_point) ;;
  (* set up the master current time and the current step size *)
  assign (with_current_time_ start_time) ;;
  reinitialize <- gets reinitialize_stepsize_ ;;
  (if reinitialize
   then
     cfg <- gets stepping_config_ ;;
     SetStepSize (RT_min (initial_step_size cfg)
                         (RT_div (CT_abs (CT_sub start_time end_time))
                                 (RT_of_unsigned (min_num_steps cfg))))
   else ret tt) ;;
  ResetCounters ;;
  ret Success.

(** [SuccessCode PreIterationCheck() const override] *)
Definition PreIterationCheck : M SuccessCode :=
  taken <- gets num_successful_steps_taken_ ;;
  cfg <- gets stepping_config_ ;;
  if (max_num_steps cfg <=? taken)%N then ret MaxNumStepsTaken
  else
    stepsize <- gets current_stepsize_ ;;
    if RT_ltb stepsize (min_step_size cfg) then ret MinStepSizeReached
    else ret Success.

(** [void PostTrackCleanup() const override] *)
Definition PostTrackCleanup : M unit := NotifyObservers TrackingEnded.

(** [SuccessCode UpdateStepsize() const] *)
Definition UpdateStepsize : M SuccessCode :=
  next <- gets next_stepsize_ ;;
  SetStepSize next ;;
  ret Success.

(** The wrapper [Predict<CT, RT>(predicted_space, current_space,
    current_time, delta_t)], at the references its one caller passes:
    [predicted_space] is [temporary_space_] and [current_space] is
    [current_space_]. *)
Definition Predict (current_time delta_t : CT) : M SuccessCode :=
  fun t =>
    let '(code, (predicted_space, condition_number_estimate, num_steps)) :=
      tracking_Predict (temporary_space_ t) (current_space_ t)
                       current_time delta_t
                       (condition_number_estimate_ t)
                       (num_steps_since_last_condition_number_computation_ t)
                       (frequency_of_CN_estimation_ t)
                       (tracking_tolerance_ t) in
    (code,
     with_num_steps_since_last_condition_number_computation_ num_steps
       (with_condition_number_estimate_ condition_number_estimate
          (with_temporary_space_ predicted_space t))).

(** The wrapper [Correct<CT, RT>(corrected_space, current_space,
    current_time)], at the references its one caller passes:
    [corrected_space] is [tentative_space_] and [current_space] is
    [temporary_space_]. *)
Definition Correct (current_time : CT) : M SuccessCode :=
  fun t =>
    let '(code, corrected_space) :=
      tracking_Correct (tentative_space_ t) (temporary_space_ t)
                       current_time
                       (tracking_tolerance_ t)
                       (min_num_newton_iterations (newton_config_ t))
                       (max_num_newton_iterations (newton_config_ t)) in
    (code, with_tentative_space_ corrected_space t).

(** [this->next_stepsize_ = step_size_fail_factor * current_stepsize_;
     UpdateStepsize();], the statement pair of both failure branches. *)
Definition shrink_stepsize : M unit :=
  assign (fun t => with_next_stepsize_
                     (RT_mul (step_size_fail_factor (stepping_config_ t))
                             (current_stepsize_ t)) t) ;;
  UpdateStepsize ;;
  ret tt.

(** [SuccessCode TrackerIteration() const override] *)
Definition TrackerIteration : M SuccessCode :=
  NotifyObservers NewStep ;;
  current_time <- gets current_time_ ;;
  delta_t <- gets delta_t_ ;;
  predictor_code <- Predict current_time delta_t ;;
  if negb (SuccessCode_eqb predictor_code Success)
  then
    NotifyObservers FirstStepPredictorMatrixSolveFailure ;;
    shrink_stepsize ;;
    ret predictor_code
  else
    predicted_space <- gets temporary_space_ ;;
    NotifyObservers (SuccessfulPredict predicted_space) ;;
    let tentative_next_time := CT_add current_time delta_t in
    corrector_code <- Correct tentative_next_time ;;
    if SuccessCode_eqb corrector_code GoingToInfinity
    then
      (* there is no corrective action possible... *)
      ret corrector_code
    else if negb (SuccessCode_eqb corrector_code Success)
    then
      NotifyObservers CorrectorMatrixSolveFailure ;;
      shrink_stepsize ;;
      ret corrector_code
    else
      tentative_next_space <- gets tentative_space_ ;;
      NotifyObservers (SuccessfulCorrect tentative_next_space) ;;
      (* copy the tentative vector into the current space vector *)
      assign (fun t => with_current_space_ (tentative_space_ t) t) ;;
      ret Success.

(** [void IncrementCountersFail() const override] *)
Definition IncrementCountersFail : M unit :=
  Base_IncrementCountersFail ;;
  assign (with_num_successful_steps_since_stepsize_increase_ 0%N) ;;
  NotifyObservers FailedStep.

(** [void OnInfiniteTruncation() const override] *)
Definition OnInfiniteTruncation : M unit :=
  NotifyObservers InfinitePathTruncation.

(** The call of [tracking::Predict] that [TrackerIteration] makes when it
    is entered on tracker [t], and the call of [tracking::Correct] that
    follows it with the predicted point. *)
Definition predictor_call (t : Tracker) : SuccessCode * (Vec CT * RT * N) :=
  tracking_Predict (temporary_space_ t) (current_space_ t)
                   (current_time_ t) (delta_t_ t)
                   (condition_number_estimate_ t)
                   (num_steps_since_last_condition_number_computation_ t)
                   (frequency_of_CN_estimation_ t)
                   (tracking_tolerance_ t).

Definition corrector_call (t : Tracker) : SuccessCode * Vec CT :=
  tracking_Correct (tentative_space_ t)
                   (fst (fst (snd (predictor_call t))))
                   (CT_add (current_time_ t) (delta_t_ t))
                   (tracking_tolerance_ t)
                   (min_num_newton_iterations (newton_config_ t))
                   (max_num_newton_iterations (newton_config_ t)).

(** The tracker after the statement pair of the failure branches. *)
Definition shrunk (t : Tracker) : Tracker :=
  let next := RT_mul (step_size_fail_factor (stepping_config_ t))
                     (current_stepsize_ t) in
  with_current_stepsize_ next (with_next_stepsize_ next t).

(** The tracker after [e] is notified. *)
Definition notified (e : Event) (t : Tracker) : Tracker :=
  with_observed_ (e :: observed_ t) t.

(** The tracker when the predictor wrapper returns, and when the corrector
    wrapper returns, in a call of [TrackerIteration] on [t]. *)
Definition after_Predict (t : Tracker) : Tracker :=
  let p := predictor_call t in
  with_num_steps_since_last_condition_number_computation_ (snd (snd p))
    (with_condition_number_estimate_ (snd (fst (snd p)))
       (with_temporary_space_ (fst (fst (snd p))) (notified NewStep t))).

Definition after_Correct (t : Tracker) : Tracker :=
  let c := corrector_call t in
  let t1 := after_Predict t in
  with_tentative_space_ (snd c)
    (notified (SuccessfulPredict (temporary_space_ t1)) t1).

(** The operations of one path, and their effect on the tracker. *)
Inductive Operation : Type :=
| DoInitialize (start_time end_time : CT) (start_point : Vec CT)
| DoIteration
| DoUpdateStepsize.

Definition perform (o : Operation) (t : Tracker) : Tracker :=
  match o with
  | DoInitialize st en pt => snd (TrackerLoopInitialization st en pt t)
  | DoIteration => snd (TrackerIteration t)
  | DoUpdateStepsize => snd (UpdateStepsize t)
  end.

Fixpoint perform_all (os : list Operation) (t : Tracker) : Tracker :=
  match os with
  | [] => t
  | o :: os' => perform_all os' (perform o t)
  end.



(** A call of [TrackerIteration] on [t] takes one of the two branches that
    shrink the step size: the predictor fails, or the corrector fails with
    a code other than [GoingToInfinity]. *)
Definition shrinks (t : Tracker) : Prop :=
  fst (predictor_call t) <> Success \/
  (fst (predictor_call t) = Success /\
   fst (corrector_call t) <> Success /\
   fst (corrector_call t) <> GoingToInfinity).



(** The tracker after [n] iterations in a row. *)
Definition iterate (n : nat) (t : Tracker) : Tracker :=
  perform_all (repeat DoIteration n) t.

(** [v(ii) = x] on a vector: the entry at index [ii] is replaced.  Eigen
    asserts that the index is in range; out of range there is no result. *)
Fixpoint Vec_assign {A : Type} (v : Vec A) (ii : nat) (x : A)
    : option (Vec A) :=
  match v, ii with
  | [], _ => None
  | _ :: rest, O => Some (x :: rest)
  | y :: rest, S k =>
      match Vec_assign rest k x with
      | Some rest' => Some (y :: rest')
      | None => None
      end
  end.

(** The loop of [CopyFinalSolution] from index [ii], with [remaining]
    indices to go: [solution_at_endtime(ii) = current_space_(ii)]. *)
Fixpoint CopyFinalSolution_loop (current_space : Vec CT)
    (remaining ii : nat) (solution_at_endtime : Vec CT)
    : option (Vec CT) :=
  match remaining with
  | O => Some solution_at_endtime
  | S remaining' =>
      match nth_error current_space ii with
      | None => None
      | Some x =>
          match Vec_assign solution_at_endtime ii x with
          | None => None
          | Some solution' =>
              CopyFinalSolution_loop current_space remaining' (S ii) solution'
          end
      end
  end.

(** [void CopyFinalSolution(Vec<CT> & solution_at_endtime) const override].
    [num_vars] is what [tracked_system_.NumVariables()] returns, and
    [resized] is what [solution_at_endtime] holds once
    [resize(num_vars)] has run, which Eigen leaves unspecified. *)
Definition CopyFinalSolution (num_vars : nat) (resized : Vec CT)
    : M (option (Vec CT)) :=
  current_space <- gets current_space_ ;;
  ret (CopyFinalSolution_loop current_space num_vars 0 resized).

(** A predictor and a corrector that answer with a fixed code, in any
    arithmetic; the predictor proposes the current point, the corrector
    accepts the proposal. *)
Definition constant_Predict (code : SuccessCode)
    (predicted_space current_space : Vec CT) (current_time delta_t : CT)
    (condition_number_estimate : RT) (num_steps frequency : N)
    (tolerance : RT) : SuccessCode * (Vec CT * RT * N) :=
  (code, (current_space, condition_number_estimate, num_steps)).

Definition constant_Correct (code : SuccessCode)
    (corrected_space current_space : Vec CT) (current_time : CT)
    (tolerance : RT) (min_iterations max_iterations : N)
    : SuccessCode * Vec CT :=
  (code, current_space).


(** [operator<] is asymmetric. *)
Definition RT_ltb_asymmetric : Prop :=
  forall a b : RT, RT_ltb a b = true -> RT_ltb b a = false.

(** The events [TrackerIteration] notifies, most recent first, by the codes
    the two stages return and the points they produce. *)
Definition events_of_iteration (predictor_code corrector_code : SuccessCode)
    (predicted_space corrected_space : Vec CT) : list Event :=
  if negb (SuccessCode_eqb predictor_code Success)
  then [FirstStepPredictorMatrixSolveFailure; NewStep]
  else if SuccessCode_eqb corrector_code GoingToInfinity
  then [SuccessfulPredict predicted_space; NewStep]
  else if negb (SuccessCode_eqb corrector_code Success)
  then [CorrectorMatrixSolveFailure; SuccessfulPredict predicted_space; NewStep]
  else [SuccessfulCorrect corrected_space; SuccessfulPredict predicted_space;
        NewStep].

End Tracker.

(** *** Exact rational arithmetic

    An instance of the traits for evaluation: reals are rationals, and times
    and coordinates stay on the real axis, where [abs] is the absolute
    value. *)

Definition Q_ltb (a b : Q) : bool := negb (Qle_bool b a).

Definition rational_traits : TrackerTraits :=
  {| RT := Q;
     CT := Q;
     RT_zero := 0%Q;
     RT_mul := Qmult;
     RT_div := Qdiv;
     RT_ltb := Q_ltb;
     RT_of_unsigned := fun n => inject_Z (Z.of_N n);
     CT_add := Qplus;
     CT_sub := Qminus;
     CT_abs := Qabs |}.

(** A predictor and a corrector that answer with a fixed code; the predictor
    proposes the current point, the corrector accepts the proposal. *)
Definition fixed_Predict (code : SuccessCode)
    (predicted_space current_space : list Q) (current_time delta_t : Q)
    (condition_number_estimate : Q) (num_steps frequency : N)
    (tolerance : Q) : SuccessCode * (list Q * Q * N) :=
  (code, (current_space, condition_number_estimate, num_steps)).

Definition fixed_Correct (code : SuccessCode)
    (corrected_space current_space : list Q) (current_time tolerance : Q)
    (min_iterations max_iterations : N) : SuccessCode * list Q :=
  (code, current_space).

(** A tracker at time 1 heading for time 0 from the point (1, 0), with step
    size 1/10 and the given counters. *)
Definition sample_config : @Stepping rational_traits :=
  @Build_Stepping rational_traits
    (1 # 10)%Q      (* initial_step_size *)
    (1 # 1000)%Q    (* min_step_size *)
    100%N           (* max_num_steps *)
    4%N             (* min_num_steps *)
    (1 # 2)%Q       (* step_size_fail_factor *).

Definition sample_tracker (taken since_increase : N)
    : @Tracker rational_traits :=
  @Build_Tracker rational_traits
    sample_config
    {| min_num_newton_iterations := 1%N; max_num_newton_iterations := 2%N |}
    (1 # 100000)%Q  (* tracking_tolerance_ *)
    true            (* reinitialize_stepsize_ *)
    1%N             (* frequency_of_CN_estimation_ *)
    1%Q             (* current_time_ *)
    (- (1 # 10))%Q  (* delta_t_ *)
    (1 # 10)%Q      (* current_stepsize_ *)
    (1 # 10)%Q      (* next_stepsize_ *)
    [1%Q; 0%Q]      (* current_space_ *)
    []              (* temporary_space_ *)
    []              (* tentative_space_ *)
    1%Q             (* condition_number_estimate_ *)
    taken
    since_increase
    0%N             (* num_steps_since_last_condition_number_computation_ *)
    []              (* observed_ *).

(** The same tracker with the reinitialization of the step size switched
    off and a step size of 1/40 left by an earlier path. *)
Definition carrying_tracker : @Tracker rational_traits :=
  @Build_Tracker rational_traits
    sample_config
    {| min_num_newton_iterations := 1%N; max_num_newton_iterations := 2%N |}
    (1 # 100000)%Q  (* tracking_tolerance_ *)
    false           (* reinitialize_stepsize_ *)
    1%N             (* frequency_of_CN_estimation_ *)
    1%Q             (* current_time_ *)
    (- (1 # 40))%Q  (* delta_t_ *)
    (1 # 40)%Q      (* current_stepsize_ *)
    (1 # 80)%Q      (* next_stepsize_ *)
    [1%Q; 0%Q]      (* current_space_ *)
    []              (* temporary_space_ *)
    []              (* tentative_space_ *)
    1%Q             (* condition_number_estimate_ *)
    0%N
    0%N
    0%N             (* num_steps_since_last_condition_number_computation_ *)
    []              (* observed_ *).

(** *** IEEE double arithmetic

    An instance of the traits for evaluation in the arithmetic of
    [DoublePrecisionTracker]: reals are binary64 numbers with the operations
    and the comparison of IEEE 754, and times and coordinates stay on the
    real axis, where [abs] is the absolute value. *)

Definition double_of_unsigned (n : N) : float :=
  PrimFloat.of_uint63 (Uint63.of_Z (Z.of_N n)).

Definition double_traits : TrackerTraits :=
  {| RT := float;
     CT := float;
     RT_zero := 0%float;
     RT_mul := PrimFloat.mul;
     RT_div := PrimFloat.div;
     RT_ltb := PrimFloat.ltb;
     RT_of_unsigned := double_of_unsigned;
     CT_add := PrimFloat.add;
     CT_sub := PrimFloat.sub;
     CT_abs := PrimFloat.abs |}.


(** A tracker on doubles at time 1 heading for time 0 from the point
    (1, 0), with initial step size 1/8, fail factor 1/2, four steps at
    least, and the given minimal, current and next step sizes. *)
Definition double_config (min_step : float) : @Stepping double_traits :=
  @Build_Stepping double_traits
    0.125%float     (* initial_step_size *)
    min_step        (* min_step_size *)
    100%N           (* max_num_steps *)
    4%N             (* min_num_steps *)
    0.5%float       (* step_size_fail_factor *).

Definition double_tracker (min_step current next : float)
    : @Tracker double_traits :=
  @Build_Tracker double_traits
    (double_config min_step)
    {| min_num_newton_iterations := 1%N; max_num_newton_iterations := 2%N |}
    0x1p-20%float   (* tracking_tolerance_ *)
    true            (* reinitialize_stepsize_ *)
    1%N             (* frequency_of_CN_estimation_ *)
    1%float         (* current_time_ *)
    (-0.125)%float  (* delta_t_ *)
    current         (* current_stepsize_ *)
    next            (* next_stepsize_ *)
    [1%float; 0%float] (* current_space_ *)
    []              (* temporary_space_ *)
    []              (* tentative_space_ *)
    1%float         (* condition_number_estimate_ *)
    0%N
    0%N
    0%N             (* num_steps_since_last_condition_number_computation_ *)
    []              (* observed_ *).


End Tracking.

(* ================================================================== *)
(** ** Differentiation of sums, products and integer powers            *)
(* ================================================================== *)

Module FunctionTree.

(** [dbl] is [std::complex<double>]: real and imaginary part. *)
Definition dbl : Type := (float * float)%type.

(** [dbl(x)] for a [double] [x]. *)
Definition dbl_of_double (x : float) : dbl := (x, 0%float).

(** [operator==] on [std::complex<double>]: both parts compare equal as
    IEEE doubles. *)
Definition dbl_eqb (a b : dbl) : bool :=
  PrimFloat.eqb (fst a) (fst b) && PrimFloat.eqb (snd a) (snd b).

(** The conversion of an [int] to [double]. *)
Definition double_of_int (z : Z) : float :=
  match z with
  | Z0 => 0%float
  | Zpos _ => PrimFloat.of_uint63 (Uint63.of_Z z)
  | Zneg p => PrimFloat.opp (PrimFloat.of_uint63 (Uint63.of_Z (Zpos p)))
  end.

(** The nodes of a function tree.  [children_] and the vector of flags that
    runs parallel to it ([children_sign_], [children_mult_or_div_]) are one
    list of pairs: [AddChild] is the only writer and pushes to both.
    [Number] carries the value its [Eval<dbl>()] returns.  [Symbol] stands
    for a node of any class defined outside this file. *)
#[warnings="-register-all"] Inductive Node : Type :=
| Number (value : dbl)
| Symbol (name : nat)
| SumOperator (children_ : list (Node * bool))
| MultOperator (children_ : list (Node * bool))
| IntegerPowerOperator (child_ : Node) (exponent_ : Z).

(** [std::make_shared<Number>(x)] for a [double] [x]. *)
Definition make_Number (x : float) : Node := Number (dbl_of_double x).

(** [AddChild(child, flag)] of [SumOperator] and of [MultOperator], declared
    in the header: [push_back] on both vectors.  The one-argument call
    passes [true] (add, multiply). *)
Definition AddChild (children_ : list (Node * bool)) (child : Node)
                    (flag : bool) : list (Node * bool) :=
  children_ ++ [(child, flag)].

(** [c = dynamic_pointer_cast<Number>(n)] followed by
    [if (c) if (c->Eval<dbl>() == dbl(x))]. *)
Definition Number_equal_to (n : Node) (x : float) : bool :=
  match n with
  | Number value => dbl_eqb value (dbl_of_double x)
  | _ => false
  end.

(** [dynamic_pointer_cast<Number>(n)] is not null. *)
Definition is_Number (n : Node) : bool :=
  match n with
  | Number _ => true
  | _ => false
  end.

Section Derivative.

(** [Differentiate()] is virtual; on a child it is the function being
    defined, which the loops below receive as [Differentiate]. *)
Variable Differentiate : Node -> Node.

(** The loop of [SumOperator::Differentiate]; [rest] holds the children
    still to visit. *)
Fixpoint SumOperator_loop (rest ret_sum : list (Node * bool)) (counter : nat)
    : list (Node * bool) * nat :=
  match rest with
  | [] => (ret_sum, counter)
  | (child, sign) :: rest' =>
      if is_Number child then SumOperator_loop rest' ret_sum counter
      else
        let temp_node := Differentiate child in
        if Number_equal_to temp_node 0
        then SumOperator_loop rest' ret_sum counter
        else SumOperator_loop rest' (AddChild ret_sum temp_node sign)
                              (S counter)
  end.

Definition SumOperator_Differentiate (children_ : list (Node * bool)) : Node :=
  let (ret_sum, counter) := SumOperator_loop children_ [] 0 in
  if (0 <? counter)%nat then SumOperator ret_sum else make_Number 0.

(** The inner loop of [MultOperator::Differentiate]: every child but the one
    at index [ii] is added to [term_ii] with its own flag; [rest] is
    [children_] from index [jj]. *)
Fixpoint MultOperator_others (ii jj : nat) (rest term_ii : list (Node * bool))
    : list (Node * bool) :=
  match rest with
  | [] => term_ii
  | (child, mult) :: rest' =>
      MultOperator_others ii (S jj) rest'
        (if negb (jj =? ii)%nat then AddChild term_ii child mult else term_ii)
  end.

(** The outer loop of [MultOperator::Differentiate] from child [ii] on;
    [rest] is [children_] from index [ii]. *)
Fixpoint MultOperator_loop (children_ : list (Node * bool)) (ii : nat)
    (rest ret_sum : list (Node * bool)) (term_counter : nat)
    : list (Node * bool) * nat :=
  match rest with
  | [] => (ret_sum, term_counter)
  | (child, mult) :: rest' =>
      let local_derivative := Differentiate child in
      if Number_equal_to local_derivative 0
      then MultOperator_loop children_ (S ii) rest' ret_sum term_counter
      else
        let term_ii := MultOperator_others ii 0 children_ [] in
        (* if the derivative of the term under consideration is equal to 1,
           no need to go on.  already have the product we need. *)
        if Number_equal_to local_derivative 1
        then MultOperator_loop children_ (S ii) rest' ret_sum term_counter
        else if negb mult
        then
          (* the first branch is for division, and the quotient rule *)
          let term_ii := AddChild term_ii child false in
          let term_ii := AddChild term_ii child false in
          let term_ii := AddChild term_ii local_derivative true in
          MultOperator_loop children_ (S ii) rest'
            (AddChild ret_sum (MultOperator term_ii) false)
            (S term_counter)
        else
          (* the second branch is for multiplication, and the product rule *)
          let term_ii := AddChild term_ii local_derivative true in
          MultOperator_loop children_ (S ii) rest'
            (AddChild ret_sum (MultOperator term_ii) true)
            (S term_counter)
  end.

Definition MultOperator_Differentiate (children_ : list (Node * bool)) : Node :=
  SumOperator (fst (MultOperator_loop children_ 0 children_ [] 0)).

End Derivative.

Section Tree.

(** [Differentiate()] of the classes defined outside this file ([Number] and
    every [Symbol]): a parameter. *)
Variable extern_Differentiate : Node -> Node.

(** [std::shared_ptr<Node> Differentiate()], by dynamic dispatch on the
    class of the node.  The two-argument constructor of [MultOperator],
    declared in the header, adds both arguments as factors. *)
Fixpoint Differentiate (n : Node) : Node :=
  match n with
  | Number _ => extern_Differentiate n
  | Symbol _ => extern_Differentiate n
  | SumOperator children_ => SumOperator_Differentiate Differentiate children_
  | MultOperator children_ => MultOperator_Differentiate Differentiate children_
  | IntegerPowerOperator child_ exponent_ =>
      if (exponent_ =? 0)%Z then make_Number 0
      else if (exponent_ =? 1)%Z then Differentiate child_
      else if (exponent_ =? 2)%Z then
        let M := AddChild (AddChild [] (make_Number 2) true) child_ true in
        MultOperator (AddChild M (Differentiate child_) true)
      else
        let M := AddChild (AddChild [] (make_Number (double_of_int exponent_))
                                    true)
                          (IntegerPowerOperator child_ (exponent_ - 1)) true in
        MultOperator (AddChild M (Differentiate child_) true)
  end.

End Tree.

(** *** What the product and quotient rules ask for

    The definitions below follow the rules, not the code, and are what the
    code is compared with. *)

(** [children_] without the child at index [ii]. *)
Fixpoint all_but (ii : nat) (children_ : list (Node * bool)) {struct children_}
    : list (Node * bool) :=
  match children_, ii with
  | [], _ => []
  | _ :: rest, O => rest
  | c :: rest, S k => c :: all_but k rest
  end.

(** The quotient-rule term of a divisor [child] at index [ii]: the other
    children, [child] twice more as a divisor, and its derivative as a
    factor. *)
Definition quotient_rule_term (children_ : list (Node * bool)) (ii : nat)
    (child derivative : Node) : Node :=
  MultOperator (all_but ii children_
                ++ [(child, false); (child, false); (derivative, true)]).

(** The product-rule term of a factor at index [ii]: the other children and
    the derivative of the factor. *)
Definition product_rule_term (children_ : list (Node * bool)) (ii : nat)
    (derivative : Node) : Node :=
  MultOperator (all_but ii children_ ++ [(derivative, true)]).

(** The derivative of a child is the constant zero, as the code tests it. *)
Definition vanishes (D : Node -> Node) (c : Node * bool) : bool :=
  Number_equal_to (D (fst c)) 0.

(** The derivative of a child is the constant one, as the code tests it. *)
Definition is_unit (D : Node -> Node) (c : Node * bool) : bool :=
  Number_equal_to (D (fst c)) 1.

(** The number of children whose derivative is not the constant zero. *)
Definition count_contributing (D : Node -> Node)
    (children_ : list (Node * bool)) : nat :=
  length (filter (fun c => negb (vanishes D c)) children_).

(** The terms of the sum a node holds; no terms when it is not a sum. *)
Definition terms_of (n : Node) : list (Node * bool) :=
  match n with
  | SumOperator children_ => children_
  | _ => []
  end.

(** The terms the outer loop owes for the children [rest], the first of
    which has index [ii]: none for a child whose derivative is the constant
    zero or the constant one, the quotient-rule term with a minus sign for
    any other divisor, the product-rule term with a plus sign for any other
    factor. *)
Fixpoint terms_from (D : Node -> Node) (children_ : list (Node * bool)) (ii : nat)
    (rest : list (Node * bool)) : list (Node * bool) :=
  match rest with
  | [] => []
  | c :: rest' =>
      (if vanishes D c || is_unit D c then []
       else if negb (snd c)
       then [(quotient_rule_term children_ ii (fst c) (D (fst c)), false)]
       else [(product_rule_term children_ ii (D (fst c)), true)])
      ++ terms_from D children_ (S ii) rest'
  end.

(** The terms the sum rule asks for: for each child that is not a [Number]
    and whose derivative is not the constant zero, in the order of the
    children, its derivative with the sign of the child. *)
Definition sum_rule_terms (D : Node -> Node) (children_ : list (Node * bool))
    : list (Node * bool) :=
  map (fun c => (D (fst c), snd c))
      (filter (fun c => negb (is_Number (fst c)) && negb (vanishes D c))
              children_).

(** *** Degrees *)

(** [int] is a 32-bit two's complement integer, held as the integer it
    stands for.  [wrap_int z] is the [int] that has the low 32 bits of [z],
    and [int_mul] is the product as the machine instruction leaves it: the
    product of the integers when that fits, its low 32 bits otherwise. *)
Definition fits_int (z : Z) : Prop := (- 2147483648 <= z < 2147483648)%Z.

Definition wrap_int (z : Z) : Z :=
  ((z + 2147483648) mod 4294967296 - 2147483648)%Z.

Definition int_mul (a b : Z) : Z := wrap_int (a * b).


Section Degrees.

(** [Degree(v)] is virtual; on a child it is the function being defined,
    which the loops below receive as [Degree].  The variable [v] is the same
    in every call and is left out. *)
Variable Degree : Node -> Z.

(** The loop of [SumOperator::Degree]; [rest] holds the children still to
    visit. *)
Fixpoint SumOperator_Degree_loop (rest : list (Node * bool)) (deg : Z) : Z :=
  match rest with
  | [] => deg
  | (child, _) :: rest' =>
      let curr_deg := Degree child in
      if (curr_deg <? 0)%Z then curr_deg
      else SumOperator_Degree_loop rest' (Z.max deg curr_deg)
  end.

(** [int SumOperator::Degree(std::shared_ptr<Variable> const& v) const] *)
Definition SumOperator_Degree (children_ : list (Node * bool)) : Z :=
  SumOperator_Degree_loop children_ 0%Z.

(** [int IntegerPowerOperator::Degree(std::shared_ptr<Variable> const& v)
    const].  The product is taken on [int]. *)
Definition IntegerPowerOperator_Degree (child_ : Node) (exponent_ : Z) : Z :=
  let base_deg := Degree child_ in
  if (base_deg <? 0)%Z then base_deg else int_mul exponent_ base_deg.

End Degrees.

Section TreeDegree.

(** [Degree(v)] of the classes whose [Degree] is defined outside this file
    ([Number], every [Symbol] and [MultOperator]): a parameter. *)
Variable extern_Degree : Node -> Z.

(** [int Degree(std::shared_ptr<Variable> const& v) const], by dynamic
    dispatch on the class of the node. *)
Fixpoint Degree (n : Node) : Z :=
  match n with
  | SumOperator children_ => SumOperator_Degree Degree children_
  | IntegerPowerOperator child_ exponent_ =>
      IntegerPowerOperator_Degree Degree child_ exponent_
  | _ => extern_Degree n
  end.

End TreeDegree.

(** The nodes below [n] whose degree is asked of another class, and the
    exponents of the powers on the way to them. *)
Fixpoint leaves (n : Node) : list Node :=
  match n with
  | SumOperator children_ => flat_map (fun c => leaves (fst c)) children_
  | IntegerPowerOperator child_ _ => leaves child_
  | _ => [n]
  end.

Fixpoint exponents (n : Node) : list Z :=
  match n with
  | SumOperator children_ => flat_map (fun c => exponents (fst c)) children_
  | IntegerPowerOperator child_ exponent_ => exponent_ :: exponents child_
  | _ => []
  end.

(** The products of integers that [Degree] asks for below [n]: the exponent
    of each power times the degree of its base. *)
Fixpoint products (extern_Degree : Node -> Z) (n : Node) : list Z :=
  match n with
  | SumOperator children_ =>
      flat_map (fun c => products extern_Degree (fst c)) children_
  | IntegerPowerOperator child_ exponent_ =>
      (exponent_ * Degree extern_Degree child_)%Z
        :: products extern_Degree child_
  | _ => []
  end.

(** *** Sample leaves *)

(** Every symbol is a variable with derivative one, and a number is
    constant. *)
Definition unit_derivative (n : Node) : Node :=
  match n with
  | Symbol _ => make_Number 1
  | _ => make_Number 0
  end.

(** Every symbol has the next symbol as its differential, and a number is
    constant. *)
Definition differential (n : Node) : Node :=
  match n with
  | Symbol k => Symbol (S k)
  | _ => make_Number 0
  end.

(** [2 / x] and [x * y]. *)
Definition two_over_x : list (Node * bool) :=
  [(make_Number 2, true); (Symbol 0, false)].

Definition x_times_y : list (Node * bool) :=
  [(Symbol 0, true); (Symbol 2, true)].

(** [2 * 3], and [x^2 + y] with a degree for each symbol. *)
Definition two_times_three : list (Node * bool) :=
  [(make_Number 2, true); (make_Number 3, true)].

Definition x_squared_plus_y : Node :=
  SumOperator [(IntegerPowerOperator (Symbol 0) 2, true); (Symbol 2, true)].

(** Symbol 0 has degree one, every other node degree zero. *)
Definition degree_in_x (n : Node) : Z :=
  match n with
  | Symbol O => 1%Z
  | _ => 0%Z
  end.

End FunctionTree.

(* ================================================================== *)
(** ** Properties of the tracker                                       *)
(* ================================================================== *)

Section TrackerProperties.

Import Tracking.

Context {TT : TrackerTraits}.

Variable tracking_Predict :
  Vec CT -> Vec CT -> CT -> CT -> RT -> N -> N -> RT ->
  SuccessCode * (Vec CT * RT * N).

Variable tracking_Correct :
  Vec CT -> Vec CT -> CT -> RT -> N -> N -> SuccessCode * Vec CT.

Lemma SuccessCode_eqb_eq (a b : SuccessCode) :
  SuccessCode_eqb a b = true <-> a = b.
Proof.
  destruct a, b; simpl; split; intro H;
    try reflexivity; try discriminate H.
  - apply N.eqb_eq in H. now subst.
  - injection H as ->. apply N.eqb_refl.
Qed.

Lemma SuccessCode_eqb_neq (a b : SuccessCode) :
  SuccessCode_eqb a b = false <-> a <> b.
Proof.
  split.
  - intros H E. apply SuccessCode_eqb_eq in E. congruence.
  - intro H. destruct (SuccessCode_eqb a b) eqn:E; [|reflexivity].
    apply SuccessCode_eqb_eq in E. contradiction.
Qed.

Local Abbreviation pcode t := (fst (predictor_call tracking_Predict t)).
Local Abbreviation ccode t :=
  (fst (corrector_call tracking_Predict tracking_Correct t)).
Local Abbreviation Iteration := (TrackerIteration tracking_Predict tracking_Correct).
Local Abbreviation predicted := (after_Predict tracking_Predict).
Local Abbreviation corrected := (after_Correct tracking_Predict tracking_Correct).

(** [TrackerIteration] by cases on the two codes. *)
Lemma TrackerIteration_cases (t : Tracker) :
  Iteration t =
  if negb (SuccessCode_eqb (pcode t) Success)
  then (pcode t,
        shrunk (notified FirstStepPredictorMatrixSolveFailure (predicted t)))
  else if SuccessCode_eqb (ccode t) GoingToInfinity
  then (ccode t, corrected t)
  else if negb (SuccessCode_eqb (ccode t) Success)
  then (ccode t, shrunk (notified CorrectorMatrixSolveFailure (corrected t)))
  else (Success,
        with_current_space_ (tentative_space_ (corrected t))
          (notified (SuccessfulCorrect (tentative_space_ (corrected t)))
                    (corrected t))).
Proof.
  unfold TrackerIteration, Predict, Correct, shrink_stepsize, UpdateStepsize,
    SetStepSize, NotifyObservers, bind, gets, assign, ret,
    after_Correct, after_Predict, corrector_call, predictor_call,
    shrunk, notified.
  cbn -[SuccessCode_eqb].
  destruct (tracking_Predict (temporary_space_ t) (current_space_ t)
              (current_time_ t) (delta_t_ t) (condition_number_estimate_ t)
              (num_steps_since_last_condition_number_computation_ t)
              (frequency_of_CN_estimation_ t) (tracking_tolerance_ t))
    as [pc [[pspace pcond] psteps]].
  cbn -[SuccessCode_eqb].
  destruct (negb (SuccessCode_eqb pc Success)); [reflexivity|].
  cbn -[SuccessCode_eqb].
  destruct (tracking_Correct (tentative_space_ t) pspace
              (CT_add (current_time_ t) (delta_t_ t)) (tracking_tolerance_ t)
              (min_num_newton_iterations (newton_config_ t))
              (max_num_newton_iterations (newton_config_ t)))
    as [cc cspace].
  cbn -[SuccessCode_eqb].
  destruct (SuccessCode_eqb cc GoingToInfinity); [reflexivity|].
  destruct (negb (SuccessCode_eqb cc Success)); reflexivity.
Qed.

(** Rewrites a call of [TrackerIteration] into its branch, given what is
    known about the two codes. *)
Ltac iteration_branch :=
  rewrite TrackerIteration_cases;
  repeat match goal with
         | H : fst (predictor_call _ _) = _ |- _ => rewrite H
         | H : fst (corrector_call _ _ _) = _ |- _ => rewrite H
         | H : fst (predictor_call _ _) <> _ |- _ =>
             rewrite (proj2 (SuccessCode_eqb_neq _ _) H)
         | H : fst (corrector_call _ _ _) <> _ |- _ =>
             rewrite (proj2 (SuccessCode_eqb_neq _ _) H)
         end;
  cbn [negb fst snd SuccessCode_eqb].

(** The fields the predictor and corrector wrappers leave alone. *)
Lemma after_Correct_frame (t : Tracker) :
  current_space_ (corrected t) = current_space_ t /\
  current_stepsize_ (corrected t) = current_stepsize_ t /\
  next_stepsize_ (corrected t) = next_stepsize_ t /\
  stepping_config_ (corrected t) = stepping_config_ t /\
  num_successful_steps_taken_ (corrected t) = num_successful_steps_taken_ t /\
  tentative_space_ (corrected t)
    = snd (corrector_call tracking_Predict tracking_Correct t).
Proof. repeat split. Qed.

Lemma after_Predict_frame (t : Tracker) :
  current_space_ (predicted t) = current_space_ t /\
  current_stepsize_ (predicted t) = current_stepsize_ t /\
  next_stepsize_ (predicted t) = next_stepsize_ t /\
  stepping_config_ (predicted t) = stepping_config_ t /\
  num_successful_steps_taken_ (predicted t) = num_successful_steps_taken_ t.
Proof. repeat split. Qed.

(** C1: when the predictor and the corrector both return [Success],
    [TrackerIteration] returns [Success] and [current_space_] holds the point
    the corrector produced, which is also what [tentative_space_] holds. *)
Theorem C1_iteration_success_commits (t : Tracker) :
  pcode t = Success ->
  ccode t = Success ->
  fst (Iteration t) = Success /\
  current_space_ (snd (Iteration t))
    = snd (corrector_call tracking_Predict tracking_Correct t) /\
  current_space_ (snd (Iteration t)) = tentative_space_ (snd (Iteration t)).
Proof.
  intros Hp Hc. iteration_branch. repeat split.
Qed.

(** A call of [TrackerIteration] returns [Success] only through its last
    branch: both codes were [Success], and the tentative point was
    committed. *)
Lemma TrackerIteration_Success_inv (t : Tracker) :
  fst (Iteration t) = Success ->
  pcode t = Success /\ ccode t = Success /\
  current_space_ (snd (Iteration t)) = tentative_space_ (snd (Iteration t)).
Proof.
  rewrite TrackerIteration_cases.
  destruct (SuccessCode_eqb (pcode t) Success) eqn:Ep; cbn [negb].
  - apply SuccessCode_eqb_eq in Ep.
    destruct (SuccessCode_eqb (ccode t) GoingToInfinity) eqn:Eg.
    + apply SuccessCode_eqb_eq in Eg. cbn [fst]. intro H.
      rewrite Eg in H. discriminate H.
    + destruct (SuccessCode_eqb (ccode t) Success) eqn:Ec; cbn [negb fst].
      * apply SuccessCode_eqb_eq in Ec. repeat split; assumption.
      * intro H. apply SuccessCode_eqb_neq in Ec. contradiction.
  - cbn [fst]. intro H. apply SuccessCode_eqb_neq in Ep. contradiction.
Qed.

(** C2: when the corrector returns [GoingToInfinity], [TrackerIteration]
    returns that code and leaves [next_stepsize_], [current_stepsize_] and
    [current_space_] as they were. *)
Theorem C2_going_to_infinity_propagates (t : Tracker) :
  pcode t = Success ->
  ccode t = GoingToInfinity ->
  fst (Iteration t) = GoingToInfinity /\
  next_stepsize_ (snd (Iteration t)) = next_stepsize_ t /\
  current_stepsize_ (snd (Iteration t)) = current_stepsize_ t /\
  current_space_ (snd (Iteration t)) = current_space_ t.
Proof.
  intros Hp Hc. iteration_branch. repeat split.
Qed.

(** C3: when the predictor fails, or the predictor succeeds and the corrector
    fails with a code other than [GoingToInfinity], [TrackerIteration] sets
    [next_stepsize_] to [step_size_fail_factor * current_stepsize_], makes
    it the current step size, and returns the code of the stage that
    failed. *)
Theorem C3_failure_shrinks_and_propagates (t : Tracker) :
  pcode t <> Success \/
  (pcode t = Success /\ ccode t <> Success /\ ccode t <> GoingToInfinity) ->
  (pcode t <> Success -> fst (Iteration t) = pcode t) /\
  (pcode t = Success -> fst (Iteration t) = ccode t) /\
  fst (Iteration t) <> Success /\
  next_stepsize_ (snd (Iteration t))
    = RT_mul (step_size_fail_factor (stepping_config_ t))
             (current_stepsize_ t) /\
  current_stepsize_ (snd (Iteration t)) = next_stepsize_ (snd (Iteration t)).
Proof.
  intros [Hp | (Hp & Hc & Hg)].
  - iteration_branch. repeat split; auto. intro E. contradiction.
  - iteration_branch. repeat split; auto. intro E. contradiction.
Qed.

(** C5: [PreIterationCheck] returns [MaxNumStepsTaken] when the number of
    successful steps has reached [max_num_steps], whatever the step size;
    otherwise [MinStepSizeReached] when the current step size is below
    [min_step_size]; otherwise [Success]; the tracker is left as it was. *)
Theorem C5_pre_iteration_check (t : Tracker) :
  snd (PreIterationCheck t) = t /\
  ((max_num_steps (stepping_config_ t) <= num_successful_steps_taken_ t)%N ->
   fst (PreIterationCheck t) = MaxNumStepsTaken) /\
  ((num_successful_steps_taken_ t < max_num_steps (stepping_config_ t))%N ->
   RT_ltb (current_stepsize_ t) (min_step_size (stepping_config_ t)) = true ->
   fst (PreIterationCheck t) = MinStepSizeReached) /\
  ((num_successful_steps_taken_ t < max_num_steps (stepping_config_ t))%N ->
   RT_ltb (current_stepsize_ t) (min_step_size (stepping_config_ t)) = false ->
   fst (PreIterationCheck t) = Success).
Proof.
  unfold PreIterationCheck, bind, gets, ret. cbn.
  destruct (N.leb_spec (max_num_steps (stepping_config_ t))
                       (num_successful_steps_taken_ t)) as [Hle | Hlt].
  - repeat split; auto; intros; lia.
  - destruct (RT_ltb (current_stepsize_ t) (min_step_size (stepping_config_ t)));
      repeat split; auto; intros; try lia; discriminate.
Qed.

(** [TrackerIteration] never writes the count of successful steps. *)
Lemma TrackerIteration_keeps_steps_taken (t : Tracker) :
  num_successful_steps_taken_ (snd (Iteration t))
    = num_successful_steps_taken_ t.
Proof.
  rewrite TrackerIteration_cases.
  destruct (negb (SuccessCode_eqb (pcode t) Success)); [reflexivity|].
  destruct (SuccessCode_eqb (ccode t) GoingToInfinity); [reflexivity|].
  destruct (negb (SuccessCode_eqb (ccode t) Success)); reflexivity.
Qed.

(** C6: [IncrementCountersFail] sets
    [num_successful_steps_since_stepsize_increase_] to zero whatever it held
    and leaves [num_successful_steps_taken_] as it was; the same holds of a
    failed iteration followed by the counter update. *)
Theorem C6_failure_resets_streak (t : Tracker) :
  let t' := snd (IncrementCountersFail t) in
  let t'' := snd (IncrementCountersFail (snd (Iteration t))) in
  num_successful_steps_since_stepsize_increase_ t' = 0%N /\
  num_successful_steps_taken_ t' = num_successful_steps_taken_ t /\
  num_successful_steps_since_stepsize_increase_ t'' = 0%N /\
  num_successful_steps_taken_ t'' = num_successful_steps_taken_ t.
Proof.
  cbv zeta. repeat split.
  change (num_successful_steps_taken_ (snd (Iteration t))
          = num_successful_steps_taken_ t).
  apply TrackerIteration_keeps_steps_taken.
Qed.

(** [TrackerLoopInitialization] returns [Success], stores the start time,
    and has no statement that writes [current_space_]. *)
Lemma TrackerLoopInitialization_effect
    (start_time end_time : CT) (start_point : Vec CT) (t : Tracker) :
  let r := TrackerLoopInitialization start_time end_time start_point t in
  fst r = Success /\
  current_time_ (snd r) = start_time /\
  current_space_ (snd r) = current_space_ t.
Proof.
  unfold TrackerLoopInitialization, ResetCounters, Base_ResetCounters,
    SetStepSize, NotifyObservers, bind, gets, assign, ret.
  cbn. destruct (reinitialize_stepsize_ t); repeat split.
Qed.

(** C8: [TrackerLoopInitialization], when [reinitialize_stepsize_] is set,
    makes the current step size the smaller of [initial_step_size] and the
    distance bound [abs(start_time - end_time) / min_num_steps]: the
    distance bound when it is less than [initial_step_size], and
    [initial_step_size] otherwise; in every case it zeroes the counters of
    successful steps and sets the count of steps since the last
    condition-number computation to the frequency of that computation. *)
Theorem C8_initialization_stepsize_and_counters
    (start_time end_time : CT) (start_point : Vec CT) (t : Tracker) :
  let t' := snd (TrackerLoopInitialization start_time end_time start_point t) in
  let bound := RT_div (CT_abs (CT_sub start_time end_time))
                      (RT_of_unsigned (min_num_steps (stepping_config_ t))) in
  (reinitialize_stepsize_ t = true ->
   RT_ltb bound (initial_step_size (stepping_config_ t)) = true ->
   current_stepsize_ t' = bound) /\
  (reinitialize_stepsize_ t = true ->
   RT_ltb bound (initial_step_size (stepping_config_ t)) = false ->
   current_stepsize_ t' = initial_step_size (stepping_config_ t)) /\
  num_successful_steps_taken_ t' = 0%N /\
  num_successful_steps_since_stepsize_increase_ t' = 0%N /\
  num_steps_since_last_condition_number_computation_ t'
    = frequency_of_CN_estimation_ t.
Proof.
  unfold TrackerLoopInitialization, ResetCounters, Base_ResetCounters,
    SetStepSize, NotifyObservers, bind, gets, assign, ret.
  cbn. destruct (reinitialize_stepsize_ t); cbn; unfold RT_min;
    repeat split; try discriminate; intros _ Hlt; now rewrite Hlt.
Qed.

(** *** The step size along a run *)









End TrackerProperties.

(* ================================================================== *)
(** ** The tracker on numbers                                          *)
(* ================================================================== *)

Section TrackerExamples.

Import Tracking.

Lemma Q_ltb_lt (a b : Q) : Q_ltb a b = true <-> (a < b)%Q.
Proof.
  unfold Q_ltb. rewrite negb_true_iff. split.
  - intro H. apply Qnot_le_lt. intro Hle.
    apply Qle_bool_iff in Hle. congruence.
  - intro H. destruct (Qle_bool b a) eqn:E; [|reflexivity].
    apply Qle_bool_iff in E. exfalso. exact (Qlt_not_le _ _ H E).
Qed.

Local Abbreviation Iteration p c :=
  (@TrackerIteration rational_traits (fixed_Predict p) (fixed_Correct c)).
Local Abbreviation Initialize :=
  (@TrackerLoopInitialization rational_traits).

Lemma C1_witness :
  fst (Iteration Success Success (sample_tracker 3 2)) = Success /\
  current_space_ (snd (Iteration Success Success (sample_tracker 3 2)))
    = [1%Q; 0%Q].
Proof.
  destruct (@C1_iteration_success_commits rational_traits
              (fixed_Predict Success) (fixed_Correct Success)
              (sample_tracker 3 2) eq_refl eq_refl) as (Hcode & Hspace & _).
  split; [exact Hcode | exact Hspace].
Defined.

Lemma C2_witness :
  fst (Iteration Success GoingToInfinity (sample_tracker 3 2))
    = GoingToInfinity /\
  current_stepsize_ (snd (Iteration Success GoingToInfinity (sample_tracker 3 2)))
    = (1 # 10)%Q.
Proof.
  destruct (@C2_going_to_infinity_propagates rational_traits
              (fixed_Predict Success) (fixed_Correct GoingToInfinity)
              (sample_tracker 3 2) eq_refl eq_refl) as (Hcode & _ & Hstep & _).
  split; [exact Hcode | exact Hstep].
Defined.

Lemma C3_witness :
  fst (Iteration Success (OtherCode 9) (sample_tracker 3 2)) = OtherCode 9 /\
  current_stepsize_ (snd (Iteration Success (OtherCode 9) (sample_tracker 3 2)))
    = ((1 # 2) * (1 # 10))%Q.
Proof.
  destruct (@C3_failure_shrinks_and_propagates rational_traits
              (fixed_Predict Success) (fixed_Correct (OtherCode 9))
              (sample_tracker 3 2)) as (_ & Hcode & _ & Hnext & Hcur).
  { right. repeat split; discriminate. }
  split; [exact (Hcode eq_refl) | exact (eq_trans Hcur Hnext)].
Defined.

Lemma C5_witness :
  fst (@PreIterationCheck rational_traits (sample_tracker 100 0))
    = MaxNumStepsTaken /\
  fst (@PreIterationCheck rational_traits (sample_tracker 99 0)) = Success.
Proof.
  split.
  - apply (proj1 (proj2 (@C5_pre_iteration_check rational_traits
                           (sample_tracker 100 0)))).
    vm_compute. discriminate.
  - apply (proj2 (proj2 (proj2 (@C5_pre_iteration_check rational_traits
                                  (sample_tracker 99 0))))).
    + reflexivity.
    + reflexivity.
Defined.

Lemma C8_witness :
  current_stepsize_
    (snd (Initialize 1%Q (3 # 4)%Q [1%Q; 0%Q] (sample_tracker 3 2)))
    = (1 # 16)%Q /\
  current_stepsize_ (snd (Initialize 1%Q 0%Q [1%Q; 0%Q] (sample_tracker 3 2)))
    = (1 # 10)%Q.
Proof.
  split.
  - exact (proj1 (@C8_initialization_stepsize_and_counters rational_traits
                    1%Q (3 # 4)%Q [1%Q; 0%Q] (sample_tracker 3 2))
                 eq_refl eq_refl).
  - exact (proj1 (proj2 (@C8_initialization_stepsize_and_counters
                           rational_traits 1%Q 0%Q [1%Q; 0%Q]
                           (sample_tracker 3 2)))
                 eq_refl eq_refl).
Defined.



(** C7, on the code: [TrackerLoopInitialization] is called with the start
    point (2, 3) on a tracker whose current point is (1, 0); it returns
    [Success] and stores the start time, and the current point is still
    (1, 0). *)
Theorem C7_initialization_leaves_current_space :
  let r := Initialize 1%Q 0%Q [2%Q; 3%Q] (sample_tracker 0 0) in
  fst r = Success /\
  current_time_ (snd r) = 1%Q /\
  current_space_ (snd r) = [1%Q; 0%Q] /\
  current_space_ (snd r) <> [2%Q; 3%Q].
Proof.
  cbv zeta.
  destruct (@TrackerLoopInitialization_effect rational_traits
              1%Q 0%Q [2%Q; 3%Q] (sample_tracker 0 0)) as (Hc & Ht & Hs).
  repeat split; try assumption.
  rewrite Hs. discriminate.
Qed.

End TrackerExamples.

(* ================================================================== *)
(** ** Properties of product differentiation                           *)
(* ================================================================== *)

Section ProductRule.

Import FunctionTree.

Variable D : Node -> Node.

Lemma MultOperator_others_past (ii : nat) (rest : list (Node * bool)) :
  forall jj term_ii, (ii < jj)%nat ->
    MultOperator_others ii jj rest term_ii = term_ii ++ rest.
Proof.
  induction rest as [|[child mult] rest IH]; intros jj term_ii Hlt; cbn.
  - now rewrite app_nil_r.
  - destruct (Nat.eqb_spec jj ii) as [E|E]; [lia|]. cbn [negb].
    rewrite IH by lia. unfold AddChild. now rewrite <- app_assoc.
Qed.

Lemma MultOperator_others_spec (ii : nat) (rest : list (Node * bool)) :
  forall jj term_ii, (jj <= ii)%nat ->
    MultOperator_others ii jj rest term_ii
    = term_ii ++ all_but (ii - jj) rest.
Proof.
  induction rest as [|[child mult] rest IH]; intros jj term_ii Hle; cbn.
  - now rewrite app_nil_r.
  - destruct (Nat.eqb_spec jj ii) as [E|E]; cbn [negb].
    + subst jj. rewrite Nat.sub_diag. apply MultOperator_others_past. lia.
    + rewrite IH by lia. unfold AddChild. rewrite <- app_assoc. cbn.
      replace (ii - jj)%nat with (S (ii - S jj)) by lia. reflexivity.
Qed.

Lemma MultOperator_loop_spec (children_ : list (Node * bool))
    (rest : list (Node * bool)) :
  forall ii ret_sum term_counter,
    MultOperator_loop D children_ ii rest ret_sum term_counter
    = (ret_sum ++ terms_from D children_ ii rest,
       (term_counter + length (terms_from D children_ ii rest))%nat).
Proof.
  induction rest as [|[child mult] rest IH]; intros ii ret_sum term_counter.
  - cbn. now rewrite app_nil_r, Nat.add_0_r.
  - cbn [MultOperator_loop terms_from]. unfold vanishes, is_unit. cbn [fst snd].
    destruct (Number_equal_to (D child) 0); cbn [orb].
    { rewrite IH. reflexivity. }
    destruct (Number_equal_to (D child) 1).
    { rewrite IH. reflexivity. }
    rewrite MultOperator_others_spec by lia.
    rewrite Nat.sub_0_r. cbn [app].
    unfold quotient_rule_term, product_rule_term, AddChild.
    destruct mult; cbn [negb]; rewrite IH; cbn [app length];
      rewrite <- !app_assoc; cbn [app];
      rewrite <- ?plus_n_Sm; reflexivity.
Qed.

Lemma MultOperator_Differentiate_terms (children_ : list (Node * bool)) :
  MultOperator_Differentiate D children_
  = SumOperator (terms_from D children_ 0 children_).
Proof.
  unfold MultOperator_Differentiate. now rewrite MultOperator_loop_spec.
Qed.

(** The term owed for the child at index [ii + k] is among the terms owed
    from index [ii] on, unless its derivative is the constant zero or one. *)
Lemma terms_from_In (children_ rest : list (Node * bool)) :
  forall ii k c,
    nth_error rest k = Some c ->
    vanishes D c = false ->
    is_unit D c = false ->
    In (if negb (snd c)
        then (quotient_rule_term children_ (ii + k) (fst c) (D (fst c)), false)
        else (product_rule_term children_ (ii + k) (D (fst c)), true))
       (terms_from D children_ ii rest).
Proof.
  induction rest as [|c0 rest IH]; intros ii k c Hnth Hz Hu.
  - destruct k; discriminate Hnth.
  - destruct k as [|k]; cbn [nth_error terms_from] in *.
    + injection Hnth as ->. rewrite Hz, Hu, Nat.add_0_r. cbn [orb].
      apply in_or_app. left. destruct (negb (snd c)); left; reflexivity.
    + apply in_or_app. right.
      replace (ii + S k)%nat with (S ii + k)%nat by lia.
      now apply IH.
Qed.

(** One term is owed for each child whose derivative is neither the constant
    zero nor the constant one. *)
Lemma terms_from_length (children_ rest : list (Node * bool)) :
  forall ii,
    length (terms_from D children_ ii rest)
    = length (filter (fun c => negb (vanishes D c) && negb (is_unit D c)) rest).
Proof.
  induction rest as [|c rest IH]; intro ii; cbn [terms_from filter].
  - reflexivity.
  - rewrite length_app, IH.
    destruct (vanishes D c); cbn [orb negb andb]; [reflexivity|].
    destruct (is_unit D c); cbn [negb]; [reflexivity|].
    destruct (negb (snd c)); reflexivity.
Qed.

End ProductRule.

Section TreeProperties.

Import FunctionTree.

Variable extern_Differentiate : Node -> Node.

Local Abbreviation derivative := (Differentiate extern_Differentiate).

(** On a product, [Differentiate] is [MultOperator::Differentiate], and its
    result is the sum of the terms owed for the children. *)
Lemma Differentiate_MultOperator (children_ : list (Node * bool)) :
  derivative (MultOperator children_)
  = SumOperator (terms_from derivative children_ 0 children_).
Proof.
  cbn [Differentiate]. apply MultOperator_Differentiate_terms.
Qed.

(** C9, as amended: for a child of a product that is marked as a divisor and
    whose derivative is neither the constant zero nor the constant one,
    [MultOperator::Differentiate] builds the term that holds the other
    children, that child twice more as a divisor and the derivative of the
    child as a factor, and enters it in the returned sum with a minus
    sign. *)
Theorem C9_quotient_rule_term
    (children_ : list (Node * bool)) (ii : nat) (child : Node) :
  nth_error children_ ii = Some (child, false) ->
  Number_equal_to (derivative child) 0 = false ->
  Number_equal_to (derivative child) 1 = false ->
  In (MultOperator
        (all_but ii children_
         ++ [(child, false); (child, false); (derivative child, true)]),
      false)
     (terms_of (derivative (MultOperator children_))).
Proof.
  intros Hnth Hzero Hone.
  rewrite Differentiate_MultOperator. cbn [terms_of].
  exact (@terms_from_In derivative children_ children_ 0 ii (child, false)
           Hnth Hzero Hone).
Qed.

(** The sum returned for a product has one term for each child whose
    derivative is neither the constant zero nor the constant one; a child
    whose derivative is the constant one has none. *)
Lemma MultOperator_Differentiate_term_count (children_ : list (Node * bool)) :
  length (terms_of (derivative (MultOperator children_)))
  = length (filter (fun c => negb (vanishes derivative c)
                             && negb (is_unit derivative c)) children_).
Proof.
  rewrite Differentiate_MultOperator. cbn [terms_of].
  apply terms_from_length.
Qed.

End TreeProperties.

Section TreeExamples.

Import FunctionTree.

Lemma C9_witness :
  In (MultOperator [(make_Number 2, true); (Symbol 0, false);
                    (Symbol 0, false); (Symbol 1, true)], false)
     (terms_of (Differentiate differential (MultOperator two_over_x))).
Proof.
  exact (@C9_quotient_rule_term differential two_over_x 1 (Symbol 0)
           eq_refl eq_refl eq_refl).
Defined.

(** C9, as stated, fails: in [2 / x] the divisor [x] has derivative the
    constant one, which is not the constant zero, and the returned sum has
    no term at all. *)
Lemma C9_counterexample :
  nth_error two_over_x 1 = Some (Symbol 0, false) /\
  Number_equal_to (Differentiate unit_derivative (Symbol 0)) 0 = false /\
  Differentiate unit_derivative (MultOperator two_over_x) = SumOperator [] /\
  ~ In (MultOperator
          (all_but 1 two_over_x
           ++ [(Symbol 0, false); (Symbol 0, false);
               (Differentiate unit_derivative (Symbol 0), true)]),
        false)
       (terms_of (Differentiate unit_derivative (MultOperator two_over_x))).
Proof.
  repeat split. intros [].
Qed.

(** C10, on the code: both factors of [x * y] have derivative the constant
    one, so two children have a derivative that is not the constant zero,
    and the sum returned for the product has no term. *)
Theorem C10_unit_derivative_terms_dropped :
  count_contributing (Differentiate unit_derivative) x_times_y = 2%nat /\
  Differentiate unit_derivative (MultOperator x_times_y) = SumOperator [] /\
  length (terms_of (Differentiate unit_derivative (MultOperator x_times_y)))
    = 0%nat.
Proof.
  repeat split.
Qed.

End TreeExamples.

(* ================================================================== *)
(** ** Further behaviour of the tracker                                *)
(* ================================================================== *)

Section TrackerBehaviour.

Import Tracking.

Context {TT : TrackerTraits}.

Variable tracking_Predict :
  Vec CT -> Vec CT -> CT -> CT -> RT -> N -> N -> RT ->
  SuccessCode * (Vec CT * RT * N).

Variable tracking_Correct :
  Vec CT -> Vec CT -> CT -> RT -> N -> N -> SuccessCode * Vec CT.

Local Abbreviation pcode t := (fst (predictor_call tracking_Predict t)).
Local Abbreviation ccode t :=
  (fst (corrector_call tracking_Predict tracking_Correct t)).
Local Abbreviation Iteration := (TrackerIteration tracking_Predict tracking_Correct).

(** Splits a statement about one call of [TrackerIteration] into its four
    branches. *)
Ltac by_branch t :=
  rewrite ?(TrackerIteration_cases tracking_Predict tracking_Correct t);
  destruct (SuccessCode_eqb (pcode t) Success) eqn:Epred; cbn [negb];
  [ destruct (SuccessCode_eqb (ccode t) GoingToInfinity) eqn:Einf;
    [ | destruct (SuccessCode_eqb (ccode t) Success) eqn:Ecorr; cbn [negb] ]
  | ].

(** What [TrackerIteration] leaves alone in each of its branches. *)
Lemma TrackerIteration_preserves (t : Tracker) :
  let t' := snd (Iteration t) in
  current_time_ t' = current_time_ t /\
  delta_t_ t' = delta_t_ t /\
  stepping_config_ t' = stepping_config_ t /\
  newton_config_ t' = newton_config_ t /\
  tracking_tolerance_ t' = tracking_tolerance_ t /\
  reinitialize_stepsize_ t' = reinitialize_stepsize_ t /\
  frequency_of_CN_estimation_ t' = frequency_of_CN_estimation_ t /\
  num_successful_steps_taken_ t' = num_successful_steps_taken_ t /\
  num_successful_steps_since_stepsize_increase_ t'
    = num_successful_steps_since_stepsize_increase_ t.
Proof.
  cbv zeta. by_branch t; repeat split.
Qed.

(** X1: [TrackerIteration] never writes the current time, the time step,
    the configuration or the step counters, whatever the two stages return:
    in particular a successful iteration does not advance the time. *)
Theorem TrackerIteration_frame (t : Tracker) :
  let t' := snd (Iteration t) in
  current_time_ t' = current_time_ t /\
  delta_t_ t' = delta_t_ t /\
  stepping_config_ t' = stepping_config_ t /\
  newton_config_ t' = newton_config_ t /\
  tracking_tolerance_ t' = tracking_tolerance_ t /\
  reinitialize_stepsize_ t' = reinitialize_stepsize_ t /\
  frequency_of_CN_estimation_ t' = frequency_of_CN_estimation_ t /\
  num_successful_steps_taken_ t' = num_successful_steps_taken_ t /\
  num_successful_steps_since_stepsize_increase_ t'
    = num_successful_steps_since_stepsize_increase_ t.
Proof.
  exact (TrackerIteration_preserves t).
Qed.

(** X2: an iteration that does not return [Success] leaves the current
    point as it was. *)
Theorem TrackerIteration_failure_keeps_point (t : Tracker) :
  fst (Iteration t) <> Success ->
  current_space_ (snd (Iteration t)) = current_space_ t.
Proof.
  by_branch t; cbn [fst snd]; intro H; try reflexivity.
  contradiction.
Qed.

(** X3: the events of one iteration, most recent first, are [NewStep]
    followed by the failure of the predictor; or by the predicted point
    alone when the corrector reports [GoingToInfinity]; or by the predicted
    point and the failure of the corrector; or by the predicted and the
    corrected point. *)
Theorem TrackerIteration_events (t : Tracker) :
  observed_ (snd (Iteration t))
  = events_of_iteration
      (pcode t) (ccode t)
      (fst (fst (snd (predictor_call tracking_Predict t))))
      (snd (corrector_call tracking_Predict tracking_Correct t))
    ++ observed_ t.
Proof.
  unfold events_of_iteration. by_branch t; reflexivity.
Qed.

(** X4: when the predictor fails the corrector is not run: the tentative
    point is untouched, and the temporary point holds what the predictor
    left. *)
Theorem TrackerIteration_predictor_failure_skips_corrector (t : Tracker) :
  pcode t <> Success ->
  tentative_space_ (snd (Iteration t)) = tentative_space_ t /\
  temporary_space_ (snd (Iteration t))
    = fst (fst (snd (predictor_call tracking_Predict t))).
Proof.
  intro H. by_branch t.
  1-3: apply SuccessCode_eqb_eq in Epred; contradiction.
  split; reflexivity.
Qed.

(** An iteration that fails with a code other than [GoingToInfinity]
    multiplies the current step size by the fail factor. *)
Lemma TrackerIteration_failure_shrinks (t : Tracker) :
  fst (Iteration t) <> Success ->
  fst (Iteration t) <> GoingToInfinity ->
  current_stepsize_ (snd (Iteration t))
  = RT_mul (step_size_fail_factor (stepping_config_ t)) (current_stepsize_ t).
Proof.
  by_branch t; cbn [fst snd]; intros Hs Hg; try reflexivity.
  - apply SuccessCode_eqb_eq in Einf. contradiction.
  - contradiction.
Qed.

(** A run of [n] iterations leaves the configuration and the count of
    successful steps alone. *)
Lemma iterations_preserve (n : nat) :
  forall t,
    let t' := perform_all tracking_Predict tracking_Correct
                          (repeat DoIteration n) t in
    stepping_config_ t' = stepping_config_ t /\
    num_successful_steps_taken_ t' = num_successful_steps_taken_ t.
Proof.
  induction n as [|n IH]; intro t; [split; reflexivity|].
  cbn [repeat perform_all perform]. cbv zeta in IH.
  destruct (IH (snd (Iteration t))) as [Hc Hs].
  destruct (TrackerIteration_preserves t) as (_ & _ & Hc' & _ & _ & _ & _ & Hs' & _).
  split; congruence.
Qed.

(** An iteration that takes a shrinking branch multiplies the current step
    size by the fail factor. *)
Lemma TrackerIteration_shrinks (t : Tracker) :
  shrinks tracking_Predict tracking_Correct t ->
  current_stepsize_ (snd (Iteration t))
  = RT_mul (step_size_fail_factor (stepping_config_ t)) (current_stepsize_ t).
Proof.
  unfold shrinks. intros [Hp | (Hp & Hc & Hg)].
  - rewrite TrackerIteration_cases.
    rewrite (proj2 (SuccessCode_eqb_neq _ _) Hp). reflexivity.
  - rewrite TrackerIteration_cases. rewrite Hp.
    rewrite (proj2 (SuccessCode_eqb_neq _ _) Hg).
    rewrite (proj2 (SuccessCode_eqb_neq _ _) Hc). reflexivity.
Qed.

Lemma iterate_succ (n : nat) (t : Tracker) :
  iterate tracking_Predict tracking_Correct (S n) t
  = iterate tracking_Predict tracking_Correct n (snd (Iteration t)).
Proof. reflexivity. Qed.

Lemma failed_iterations_stepsize (n : nat) :
  forall t,
    (forall k, (k < n)%nat ->
       shrinks tracking_Predict tracking_Correct
               (iterate tracking_Predict tracking_Correct k t)) ->
    current_stepsize_ (iterate tracking_Predict tracking_Correct n t)
    = Nat.iter n (RT_mul (step_size_fail_factor (stepping_config_ t)))
               (current_stepsize_ t).
Proof.
  induction n as [|n IH]; intros t Hfail; [reflexivity|].
  rewrite iterate_succ. rewrite IH.
  - destruct (TrackerIteration_preserves t) as (_ & _ & Hcfg & _).
    rewrite Hcfg.
    rewrite TrackerIteration_shrinks by (apply (Hfail 0%nat); lia).
    rewrite Nat.iter_swap. reflexivity.
  - intros k Hk. rewrite <- iterate_succ. apply Hfail. lia.
Qed.

(** X5: when each of [n] iterations in a row takes a shrinking branch (the
    predictor fails, or the corrector fails with a code other than
    [GoingToInfinity]), the current step size after them is the step size
    before them multiplied [n] times by the fail factor. *)
Theorem repeated_failures_shrink_geometrically (n : nat) (t : Tracker) :
  (forall k, (k < n)%nat ->
     shrinks tracking_Predict tracking_Correct
             (iterate tracking_Predict tracking_Correct k t)) ->
  current_stepsize_ (iterate tracking_Predict tracking_Correct n t)
  = Nat.iter n (RT_mul (step_size_fail_factor (stepping_config_ t)))
             (current_stepsize_ t).
Proof.
  intro Hfail. now apply failed_iterations_stepsize.
Qed.

(** X6: when the step size is not reinitialized,
    [TrackerLoopInitialization] keeps the current and the next step size of
    the tracker it is called on. *)
Theorem TrackerLoopInitialization_carries_stepsize
    (start_time end_time : CT) (start_point : Vec CT) (t : Tracker) :
  reinitialize_stepsize_ t = false ->
  let t' := snd (TrackerLoopInitialization start_time end_time start_point t) in
  current_stepsize_ t' = current_stepsize_ t /\
  next_stepsize_ t' = next_stepsize_ t.
Proof.
  intro Hre.
  unfold TrackerLoopInitialization, ResetCounters, Base_ResetCounters,
    SetStepSize, NotifyObservers, bind, gets, assign, ret.
  cbn. rewrite Hre. split; reflexivity.
Qed.


(** X8: when [operator<] is asymmetric and the step size is reinitialized,
    the step size after initialization exceeds neither [initial_step_size]
    nor [abs(start_time - end_time) / min_num_steps]. *)
Theorem initial_stepsize_bounded
    (start_time end_time : CT) (start_point : Vec CT) (t : Tracker) :
  RT_ltb_asymmetric ->
  reinitialize_stepsize_ t = true ->
  let h := current_stepsize_
             (snd (TrackerLoopInitialization start_time end_time start_point t))
  in
  RT_ltb (initial_step_size (stepping_config_ t)) h = false /\
  RT_ltb (RT_div (CT_abs (CT_sub start_time end_time))
                 (RT_of_unsigned (min_num_steps (stepping_config_ t)))) h
    = false.
Proof.
  intros Hasym Hre.
  assert (Hirr : forall a : RT, RT_ltb a a = false).
  { intro a. destruct (RT_ltb a a) eqn:E; [|reflexivity].
    rewrite (Hasym _ _ E) in E. discriminate E. }
  unfold TrackerLoopInitialization, ResetCounters, Base_ResetCounters,
    SetStepSize, NotifyObservers, bind, gets, assign, ret.
  cbn. rewrite Hre. cbn. unfold RT_min.
  destruct (RT_ltb (RT_div (CT_abs (CT_sub start_time end_time))
                      (RT_of_unsigned (min_num_steps (stepping_config_ t))))
                   (initial_step_size (stepping_config_ t))) eqn:E.
  - split; [apply Hasym; exact E | apply Hirr].
  - split; [apply Hirr | exact E].
Qed.

(** The code [PreIterationCheck] returns, from the four members it reads. *)
Lemma PreIterationCheck_code (t : Tracker) :
  fst (PreIterationCheck t)
  = if (max_num_steps (stepping_config_ t) <=? num_successful_steps_taken_ t)%N
    then MaxNumStepsTaken
    else if RT_ltb (current_stepsize_ t) (min_step_size (stepping_config_ t))
    then MinStepSizeReached
    else Success.
Proof.
  unfold PreIterationCheck, bind, gets, ret. cbn.
  destruct (max_num_steps (stepping_config_ t)
            <=? num_successful_steps_taken_ t)%N; [reflexivity|].
  destruct (RT_ltb (current_stepsize_ t) (min_step_size (stepping_config_ t)));
    reflexivity.
Qed.

(** X9: an iteration that returns [Success], or in which the corrector
    reports [GoingToInfinity], does not change the answer of
    [PreIterationCheck]: the iteration itself counts no step and, in these
    two cases, touches no step size. *)
Theorem PreIterationCheck_after_iteration (t : Tracker) :
  fst (Iteration t) = Success \/
  (pcode t = Success /\ ccode t = GoingToInfinity) ->
  fst (PreIterationCheck (snd (Iteration t))) = fst (PreIterationCheck t).
Proof.
  rewrite !PreIterationCheck_code.
  by_branch t; cbn [fst snd]; intros [H | [Hp Hc]]; try reflexivity;
    repeat match goal with
           | E : SuccessCode_eqb _ _ = false |- _ =>
               apply SuccessCode_eqb_neq in E
           end;
    contradiction.
Qed.

(** X11: when each of [n] iterations in a row takes a shrinking branch and
    the step size multiplied [n] times by the fail factor, in the arithmetic
    of the tracker, is below [min_step_size], then after these iterations
    [PreIterationCheck] returns [MinStepSizeReached], provided the step
    budget is not used up. *)
Theorem repeated_failures_reach_min_stepsize (n : nat) (t : Tracker) :
  (forall k, (k < n)%nat ->
     shrinks tracking_Predict tracking_Correct
             (iterate tracking_Predict tracking_Correct k t)) ->
  (num_successful_steps_taken_ t < max_num_steps (stepping_config_ t))%N ->
  RT_ltb (Nat.iter n (RT_mul (step_size_fail_factor (stepping_config_ t)))
                   (current_stepsize_ t))
         (min_step_size (stepping_config_ t)) = true ->
  fst (PreIterationCheck (iterate tracking_Predict tracking_Correct n t))
  = MinStepSizeReached.
Proof.
  intros Hfail Hbudget Hbelow.
  rewrite PreIterationCheck_code.
  destruct (iterations_preserve n t) as [Hcfg Htaken].
  unfold iterate. rewrite Hcfg, Htaken.
  fold (iterate tracking_Predict tracking_Correct n t).
  rewrite (@failed_iterations_stepsize n t Hfail).
  destruct (N.leb_spec (max_num_steps (stepping_config_ t))
                       (num_successful_steps_taken_ t)) as [Hle|_]; [lia|].
  rewrite Hbelow. reflexivity.
Qed.

(** *** The final solution *)

Lemma Vec_assign_middle {A : Type} (done rest : list A) (y x : A) :
  Vec_assign (done ++ y :: rest) (length done) x = Some (done ++ x :: rest).
Proof.
  induction done as [|d done IH]; cbn; [reflexivity|]. now rewrite IH.
Qed.

Lemma skipn_nth_error {A : Type} (l : list A) :
  forall n x, nth_error l n = Some x -> skipn n l = x :: skipn (S n) l.
Proof.
  induction l as [|y l IH]; intros [|n] x H; try discriminate H.
  - now injection H as ->.
  - cbn [nth_error] in H. cbn [skipn]. rewrite (IH n x H). reflexivity.
Qed.

Lemma CopyFinalSolution_loop_copies (current_space : Vec CT) :
  forall remaining done rest,
    length rest = remaining ->
    (length done + remaining <= length current_space)%nat ->
    CopyFinalSolution_loop current_space remaining (length done) (done ++ rest)
    = Some (done ++ firstn remaining (skipn (length done) current_space)).
Proof.
  induction remaining as [|remaining IH]; intros done rest Hrest Hlen.
  - destruct rest; [|discriminate Hrest]. reflexivity.
  - destruct rest as [|y rest]; [discriminate Hrest|].
    cbn [CopyFinalSolution_loop].
    destruct (nth_error current_space (length done)) as [x|] eqn:Hx.
    + rewrite Vec_assign_middle.
      rewrite (skipn_nth_error _ _ Hx). cbn [firstn].
      replace (done ++ x :: rest) with ((done ++ [x]) ++ rest)
        by (now rewrite <- app_assoc).
      replace (done ++ x :: firstn remaining
                               (skipn (S (length done)) current_space))
        with ((done ++ [x]) ++ firstn remaining
                                 (skipn (S (length done)) current_space))
        by (now rewrite <- app_assoc).
      replace (S (length done)) with (length (done ++ [x]))
        by (rewrite length_app; cbn; lia).
      apply IH.
      * now injection Hrest.
      * rewrite length_app. cbn [length]. lia.
    + apply nth_error_None in Hx. lia.
Qed.

Lemma CopyFinalSolution_loop_out_of_range (current_space : Vec CT) :
  forall remaining done rest,
    length rest = remaining ->
    (length done <= length current_space)%nat ->
    (length current_space < length done + remaining)%nat ->
    CopyFinalSolution_loop current_space remaining (length done) (done ++ rest)
    = None.
Proof.
  induction remaining as [|remaining IH]; intros done rest Hrest Hle Hlt.
  - lia.
  - destruct rest as [|y rest]; [discriminate Hrest|].
    cbn [CopyFinalSolution_loop].
    destruct (nth_error current_space (length done)) as [x|] eqn:Hx;
      [|reflexivity].
    rewrite Vec_assign_middle.
    assert (Hin : (length done < length current_space)%nat).
    { apply nth_error_Some. congruence. }
    replace (done ++ x :: rest) with ((done ++ [x]) ++ rest)
      by (now rewrite <- app_assoc).
    replace (S (length done)) with (length (done ++ [x]))
      by (rewrite length_app; cbn; lia).
    apply IH.
    + now injection Hrest.
    + rewrite length_app. cbn [length]. lia.
    + rewrite length_app. cbn [length]. lia.
Qed.

(** X10: [CopyFinalSolution] returns the first [num_vars] coordinates of
    the current point, whatever the resized output vector held, when the
    current point has that many coordinates, and reads out of range when it
    has fewer; the tracker is left as it was. *)
Theorem CopyFinalSolution_copies
    (num_vars : nat) (resized : Vec CT) (t : Tracker) :
  length resized = num_vars ->
  snd (CopyFinalSolution num_vars resized t) = t /\
  ((num_vars <= length (current_space_ t))%nat ->
   fst (CopyFinalSolution num_vars resized t)
   = Some (firstn num_vars (current_space_ t))) /\
  (length (current_space_ t) = num_vars ->
   fst (CopyFinalSolution num_vars resized t) = Some (current_space_ t)) /\
  ((length (current_space_ t) < num_vars)%nat ->
   fst (CopyFinalSolution num_vars resized t) = None).
Proof.
  intro Hlen. unfold CopyFinalSolution, bind, gets, ret. cbn [fst snd].
  assert (Hcopy : (num_vars <= length (current_space_ t))%nat ->
            CopyFinalSolution_loop (current_space_ t) num_vars 0 resized
            = Some (firstn num_vars (current_space_ t))).
  { intro Hle.
    exact (@CopyFinalSolution_loop_copies (current_space_ t) num_vars []
             resized Hlen Hle). }
  repeat split.
  - exact Hcopy.
  - intro Heq. rewrite Hcopy by lia. rewrite <- Heq. now rewrite firstn_all.
  - intro Hlt.
    exact (@CopyFinalSolution_loop_out_of_range (current_space_ t) num_vars []
             resized Hlen (Nat.le_0_l _) Hlt).
Qed.

End TrackerBehaviour.

(* ================================================================== *)
(** ** Further behaviour of the tracker on numbers                     *)
(* ================================================================== *)

Section TrackerBehaviourExamples.

Import Tracking.

Local Open Scope Q_scope.

Lemma Q_ltb_asymmetric : @RT_ltb_asymmetric rational_traits.
Proof.
  intros a b H. apply Q_ltb_lt in H. change (Q_ltb b a = false).
  destruct (Q_ltb b a) eqn:E; [|reflexivity].
  apply Q_ltb_lt in E. exfalso. exact (Qlt_irrefl _ (Qlt_trans _ _ _ H E)).
Qed.

Local Abbreviation Iteration p c :=
  (@TrackerIteration rational_traits (fixed_Predict p) (fixed_Correct c)).

Lemma constant_failure_shrinks {TT : TrackerTraits} (t : @Tracker TT) :
  shrinks (constant_Predict (OtherCode 9)) (constant_Correct Success) t.
Proof. left. discriminate. Qed.

Lemma TrackerIteration_failure_keeps_point_witness :
  current_space_ (snd (Iteration (OtherCode 9) Success (sample_tracker 3 2)))
  = [1; 0].
Proof.
  apply (@TrackerIteration_failure_keeps_point rational_traits
           (fixed_Predict (OtherCode 9)) (fixed_Correct Success)
           (sample_tracker 3 2)).
  vm_compute. discriminate.
Defined.

Lemma TrackerIteration_predictor_failure_skips_corrector_witness :
  tentative_space_ (snd (Iteration (OtherCode 9) Success (sample_tracker 3 2)))
  = [].
Proof.
  apply (@TrackerIteration_predictor_failure_skips_corrector rational_traits
           (fixed_Predict (OtherCode 9)) (fixed_Correct Success)
           (sample_tracker 3 2)).
  vm_compute. discriminate.
Defined.

Lemma repeated_failures_shrink_geometrically_witness :
  current_stepsize_
    (@iterate double_traits (constant_Predict (OtherCode 9))
       (constant_Correct Success) 3 (double_tracker 0x1p-10 0.125 0.125))
  = 0x1p-6%float.
Proof.
  exact (@repeated_failures_shrink_geometrically double_traits
           (constant_Predict (OtherCode 9)) (constant_Correct Success)
           3%nat (double_tracker 0x1p-10 0.125 0.125)
           (fun k _ => constant_failure_shrinks _)).
Defined.

Lemma TrackerLoopInitialization_carries_stepsize_witness :
  current_stepsize_
    (snd (@TrackerLoopInitialization rational_traits 1 0 [1; 0]
            carrying_tracker)) = 1 # 40.
Proof.
  exact (proj1 (@TrackerLoopInitialization_carries_stepsize rational_traits
                  1 0 [1; 0] carrying_tracker eq_refl)).
Defined.

Lemma initial_stepsize_bounded_witness :
  Q_ltb (1 # 10)
        (current_stepsize_
           (snd (@TrackerLoopInitialization rational_traits 1 0 [1; 0]
                   (sample_tracker 3 2)))) = false.
Proof.
  exact (proj1 (@initial_stepsize_bounded rational_traits 1 0 [1; 0]
                  (sample_tracker 3 2) Q_ltb_asymmetric eq_refl)).
Defined.

Lemma PreIterationCheck_after_iteration_witness :
  fst (@PreIterationCheck rational_traits
         (snd (Iteration Success Success (sample_tracker 3 2))))
  = fst (@PreIterationCheck rational_traits (sample_tracker 3 2)).
Proof.
  apply (@PreIterationCheck_after_iteration rational_traits
           (fixed_Predict Success) (fixed_Correct Success)
           (sample_tracker 3 2)).
  left. reflexivity.
Defined.

Lemma CopyFinalSolution_copies_witness :
  fst (@CopyFinalSolution rational_traits 2 [7; 7] (sample_tracker 3 2))
  = Some [1; 0].
Proof.
  apply (proj1 (proj2 (proj2 (@CopyFinalSolution_copies rational_traits
                                2%nat [7; 7] (sample_tracker 3 2) eq_refl)))).
  reflexivity.
Defined.

Lemma repeated_failures_reach_min_stepsize_witness :
  fst (@PreIterationCheck double_traits
         (@iterate double_traits (constant_Predict (OtherCode 9))
            (constant_Correct Success) 8
            (double_tracker 0x1p-10 0.125 0.125)))
  = MinStepSizeReached.
Proof.
  apply (@repeated_failures_reach_min_stepsize double_traits
           (constant_Predict (OtherCode 9)) (constant_Correct Success)
           8%nat (double_tracker 0x1p-10 0.125 0.125)
           (fun k _ => constant_failure_shrinks _)).
  - reflexivity.
  - reflexivity.
Defined.

End TrackerBehaviourExamples.

(* ================================================================== *)
(** ** Further behaviour of differentiation                            *)
(* ================================================================== *)

Section SumRule.

Import FunctionTree.

Variable D : Node -> Node.

Lemma SumOperator_loop_spec (rest : list (Node * bool)) :
  forall ret_sum counter,
    SumOperator_loop D rest ret_sum counter
    = (ret_sum ++ sum_rule_terms D rest,
       (counter + length (sum_rule_terms D rest))%nat).
Proof.
  unfold sum_rule_terms, vanishes.
  induction rest as [|[child sign] rest IH]; intros ret_sum counter.
  - cbn. now rewrite app_nil_r, Nat.add_0_r.
  - cbn [SumOperator_loop filter fst snd].
    destruct (is_Number child); cbn [negb andb]; [apply IH|].
    destruct (Number_equal_to (D child) 0); cbn [negb]; [apply IH|].
    rewrite IH. cbn [map length fst snd]. unfold AddChild.
    rewrite <- app_assoc, <- plus_n_Sm. reflexivity.
Qed.

Lemma SumOperator_Differentiate_by_terms (children_ : list (Node * bool)) :
  SumOperator_Differentiate D children_
  = match sum_rule_terms D children_ with
    | [] => make_Number 0
    | term :: terms => SumOperator (term :: terms)
    end.
Proof.
  unfold SumOperator_Differentiate. rewrite SumOperator_loop_spec.
  cbn [app]. destruct (sum_rule_terms D children_); reflexivity.
Qed.

(** No term is owed for children whose derivatives are all the constant
    zero or one. *)
Lemma terms_from_nil (children_ rest : list (Node * bool)) :
  Forall (fun c => vanishes D c || is_unit D c = true) rest ->
  forall ii, terms_from D children_ ii rest = [].
Proof.
  induction 1 as [|c rest Hc _ IH]; intro ii; cbn [terms_from].
  - reflexivity.
  - rewrite Hc, IH. reflexivity.
Qed.

End SumRule.

Section TreeBehaviour.

Import FunctionTree.

Variable extern_Differentiate : Node -> Node.

Local Abbreviation derivative := (Differentiate extern_Differentiate).

(** X12: the derivative of a sum holds, in the order of the children and
    with their signs, the derivative of each child that is not a [Number]
    and whose derivative is not the constant zero; when there is no such
    child it is the number zero. *)
Theorem SumOperator_Differentiate_exact (children_ : list (Node * bool)) :
  derivative (SumOperator children_)
  = match sum_rule_terms derivative children_ with
    | [] => make_Number 0
    | term :: terms => SumOperator (term :: terms)
    end.
Proof.
  cbn [Differentiate]. apply SumOperator_Differentiate_by_terms.
Qed.

(** X13: the derivative of a sum is never a sum without terms. *)
Theorem SumOperator_Differentiate_never_empty (children_ : list (Node * bool)) :
  derivative (SumOperator children_) <> SumOperator [].
Proof.
  cbn [Differentiate]. rewrite SumOperator_Differentiate_by_terms.
  destruct (sum_rule_terms derivative children_); discriminate.
Qed.

(** X15: the derivative of a product is the sum that holds, in the order
    of the children: nothing for a child whose derivative is the constant
    zero or the constant one, the quotient-rule term with a minus sign for
    any other divisor, and the product-rule term with a plus sign for any
    other factor. *)
Theorem MultOperator_Differentiate_exact (children_ : list (Node * bool)) :
  derivative (MultOperator children_)
  = SumOperator (terms_from derivative children_ 0 children_).
Proof.
  apply Differentiate_MultOperator.
Qed.

(** X16: for a child of a product that is marked as a factor and whose
    derivative is neither the constant zero nor the constant one, the
    returned sum holds, with a plus sign, the term made of the other
    children and the derivative of the child as a factor. *)
Theorem MultOperator_Differentiate_product_rule_term
    (children_ : list (Node * bool)) (ii : nat) (child : Node) :
  nth_error children_ ii = Some (child, true) ->
  Number_equal_to (derivative child) 0 = false ->
  Number_equal_to (derivative child) 1 = false ->
  In (MultOperator (all_but ii children_ ++ [(derivative child, true)]), true)
     (terms_of (derivative (MultOperator children_))).
Proof.
  intros Hnth Hzero Hone.
  rewrite Differentiate_MultOperator. cbn [terms_of].
  exact (@terms_from_In derivative children_ children_ 0 ii (child, true)
           Hnth Hzero Hone).
Qed.

(** X18: a product whose children all have the constant zero or one as
    derivative differentiates to a sum without terms, and a sum that holds
    such a product keeps that empty sum as a term. *)
Theorem constant_product_leaves_empty_sum
    (children_ : list (Node * bool)) (sign : bool) :
  Forall (fun c => vanishes derivative c || is_unit derivative c = true)
         children_ ->
  derivative (MultOperator children_) = SumOperator [] /\
  derivative (SumOperator [(MultOperator children_, sign)])
  = SumOperator [(SumOperator [], sign)].
Proof.
  intro Hall.
  assert (Hprod : derivative (MultOperator children_) = SumOperator []).
  { rewrite Differentiate_MultOperator. now rewrite terms_from_nil. }
  split; [exact Hprod|].
  cbn [Differentiate]. rewrite SumOperator_Differentiate_by_terms.
  unfold sum_rule_terms, vanishes. cbn [filter fst snd is_Number negb andb].
  change (MultOperator_Differentiate derivative children_)
    with (derivative (MultOperator children_)).
  rewrite Hprod. cbn [Number_equal_to negb map fst snd].
  rewrite Hprod. reflexivity.
Qed.

End TreeBehaviour.

Section SumRuleNumbers.

Import FunctionTree.

(** X14: [SumOperator::Differentiate] never differentiates a child that is
    a [Number]: two ways of differentiating children that agree on every
    node other than a [Number] give the same derivative of the sum. *)
Theorem SumOperator_Differentiate_skips_numbers
    (D1 D2 : Node -> Node) (children_ : list (Node * bool)) :
  (forall n, is_Number n = false -> D1 n = D2 n) ->
  SumOperator_Differentiate D1 children_ = SumOperator_Differentiate D2 children_.
Proof.
  intro Hagree. unfold SumOperator_Differentiate.
  assert (Hloop : forall rest ret_sum counter,
            SumOperator_loop D1 rest ret_sum counter
            = SumOperator_loop D2 rest ret_sum counter).
  { induction rest as [|[child sign] rest IH]; intros ret_sum counter;
      cbn [SumOperator_loop]; [reflexivity|].
    destruct (is_Number child) eqn:E; [apply IH|].
    rewrite (Hagree child E).
    destruct (Number_equal_to (D2 child) 0); apply IH. }
  now rewrite Hloop.
Qed.

End SumRuleNumbers.

(* ================================================================== *)
(** ** Degrees                                                         *)
(* ================================================================== *)

Section SumDegree.

Import FunctionTree.

Local Open Scope Z_scope.

Variable Degree : Node -> Z.

Lemma SumOperator_Degree_loop_max (rest : list (Node * bool)) :
  (forall c, In c rest -> 0 <= Degree (fst c)) ->
  forall deg,
    let r := SumOperator_Degree_loop Degree rest deg in
    deg <= r /\
    (forall c, In c rest -> Degree (fst c) <= r) /\
    (r = deg \/ exists c, In c rest /\ r = Degree (fst c)).
Proof.
  induction rest as [|[child sign] rest IH]; intros Hpos deg; cbv zeta.
  - cbn. repeat split; [lia | intros c [] | now left].
  - cbn [SumOperator_Degree_loop].
    assert (Hc : 0 <= Degree child) by (apply (Hpos (child, sign)); now left).
    destruct (Z.ltb_spec (Degree child) 0) as [Hneg|_]; [lia|].
    destruct (IH (fun c H => Hpos c (or_intror H))
                 (Z.max deg (Degree child))) as (Hle & Hub & Hatt).
    repeat split.
    + lia.
    + intros c [<- | Hin]; [cbn [fst]; lia | now apply Hub].
    + destruct Hatt as [Hr | (c & Hin & Hr)].
      * destruct (Z.max_spec deg (Degree child)) as [[_ Hm] | [_ Hm]].
        -- right. exists (child, sign). split; [now left | cbn [fst]; lia].
        -- left. lia.
      * right. exists c. split; [now right | exact Hr].
Qed.

Lemma SumOperator_Degree_loop_stops (before after : list (Node * bool))
    (child : Node) (sign : bool) :
  (forall c, In c before -> 0 <= Degree (fst c)) ->
  Degree child < 0 ->
  forall deg,
    SumOperator_Degree_loop Degree (before ++ (child, sign) :: after) deg
    = Degree child.
Proof.
  intros Hpos Hneg.
  induction before as [|[c s] before IH]; intro deg; cbn [app SumOperator_Degree_loop].
  - destruct (Z.ltb_spec (Degree child) 0); [reflexivity | lia].
  - assert (Hc : 0 <= Degree c) by (apply (Hpos (c, s)); now left).
    destruct (Z.ltb_spec (Degree c) 0); [lia|].
    apply IH. intros c' Hin. apply Hpos. now right.
Qed.

Lemma SumOperator_Degree_loop_negative (rest : list (Node * bool)) :
  forall deg, 0 <= deg ->
    (SumOperator_Degree_loop Degree rest deg < 0
     <-> Exists (fun c => Degree (fst c) < 0) rest).
Proof.
  induction rest as [|[child sign] rest IH]; intros deg Hdeg;
    cbn [SumOperator_Degree_loop].
  - split; [lia | intro H; inversion H].
  - rewrite Exists_cons. cbn [fst].
    destruct (Z.ltb_spec (Degree child) 0) as [Hneg|Hpos].
    + split; [now left | intros _; exact Hneg].
    + rewrite IH by lia. split; [now right | intros [H|H]; [lia | exact H]].
Qed.

(** X19: when no child has a negative degree, the degree of a sum is the
    largest of zero and the degrees of its children. *)
Theorem SumOperator_Degree_is_maximum (children_ : list (Node * bool)) :
  (forall c, In c children_ -> 0 <= Degree (fst c)) ->
  0 <= SumOperator_Degree Degree children_ /\
  (forall c, In c children_ ->
             Degree (fst c) <= SumOperator_Degree Degree children_) /\
  (SumOperator_Degree Degree children_ = 0 \/
   exists c, In c children_ /\
             SumOperator_Degree Degree children_ = Degree (fst c)).
Proof.
  intro Hpos. exact (SumOperator_Degree_loop_max children_ Hpos 0).
Qed.

(** X20: the degree of a sum is the degree of its first child of negative
    degree, when there is one, whatever the degrees of the children after
    it. *)
Theorem SumOperator_Degree_first_negative
    (before after : list (Node * bool)) (child : Node) (sign : bool) :
  (forall c, In c before -> 0 <= Degree (fst c)) ->
  Degree child < 0 ->
  SumOperator_Degree Degree (before ++ (child, sign) :: after) = Degree child.
Proof.
  intros Hpos Hneg. now apply SumOperator_Degree_loop_stops.
Qed.

(** X22: the degree of a sum is negative exactly when some child has a
    negative degree. *)
Theorem SumOperator_Degree_negative_iff (children_ : list (Node * bool)) :
  SumOperator_Degree Degree children_ < 0
  <-> Exists (fun c => Degree (fst c) < 0) children_.
Proof.
  apply SumOperator_Degree_loop_negative. lia.
Qed.

End SumDegree.

Section TreeDegreeProperties.

Import FunctionTree.

Local Open Scope Z_scope.

Variable extern_Degree : Node -> Z.

Local Abbreviation degree := (Degree extern_Degree).

(** Induction on a node, with the hypothesis on every child of a sum and on
    the base of a power. *)
Lemma Node_induction (P : Node -> Prop) :
  (forall value, P (Number value)) ->
  (forall name, P (Symbol name)) ->
  (forall children_, Forall (fun c => P (fst c)) children_ ->
                     P (SumOperator children_)) ->
  (forall children_, P (MultOperator children_)) ->
  (forall child_ exponent_, P child_ ->
                            P (IntegerPowerOperator child_ exponent_)) ->
  forall n, P n.
Proof.
  intros HN HS Hsum Hmult Hpow.
  fix IH 1. intros [value | name | children_ | children_ | child_ exponent_].
  - apply HN.
  - apply HS.
  - apply Hsum.
    induction children_ as [|[c s] children_ IHc]; constructor.
    + apply IH.
    + exact IHc.
  - apply Hmult.
  - apply Hpow. apply IH.
Qed.

Lemma wrap_int_fits (z : Z) : fits_int z -> wrap_int z = z.
Proof.
  unfold fits_int, wrap_int. intro H. rewrite Z.mod_small by lia. lia.
Qed.

(** X21: in a tree of sums and powers whose exponents are not negative and
    in which the product of each exponent with the degree of its base fits
    in [int], the degree is negative exactly when the degree of some leaf
    is: a negative degree reaches the root whatever else the tree holds. *)
Theorem Degree_negative_iff_leaf (n : Node) :
  Forall (fun e => 0 <= e) (exponents n) ->
  Forall fits_int (products extern_Degree n) ->
  (degree n < 0 <-> Exists (fun l => extern_Degree l < 0) (leaves n)).
Proof.
  induction n as [value | name | children_ IH | children_ | child_ exponent_ IH]
    using Node_induction; intros Hexp Hfit.
  - cbn. rewrite Exists_cons, Exists_nil. tauto.
  - cbn. rewrite Exists_cons, Exists_nil. tauto.
  - cbn [Degree leaves exponents products] in *. unfold SumOperator_Degree.
    rewrite SumOperator_Degree_loop_negative by lia.
    rewrite Exists_flat_map.
    apply Forall_flat_map in Hexp. apply Forall_flat_map in Hfit.
    rewrite !Exists_exists.
    split; intros (c & Hin & Hc); exists c; (split; [exact Hin|]);
      rewrite Forall_forall in IH, Hexp, Hfit;
      apply (IH c Hin (Hexp c Hin) (Hfit c Hin)); exact Hc.
  - cbn. rewrite Exists_cons, Exists_nil. tauto.
  - cbn [Degree leaves exponents products] in *.
    unfold IntegerPowerOperator_Degree, int_mul.
    inversion Hexp as [|? ? He Hrest]; subst.
    inversion Hfit as [|? ? Hp Hprest]; subst.
    rewrite <- (IH Hrest Hprest).
    rewrite (wrap_int_fits Hp).
    destruct (Z.ltb_spec (degree child_) 0) as [Hneg|Hpos]; [tauto|].
    split; [nia | lia].
Qed.

(** Where the product does not fit, the degree of a power of a leaf of
    positive degree can come out negative: 2147483647 times 2 leaves -2. *)
Lemma IntegerPowerOperator_Degree_overflow :
  Degree (fun _ => 2) (IntegerPowerOperator (Symbol 0) 2147483647) = -2.
Proof. reflexivity. Qed.

End TreeDegreeProperties.

Section TreeBehaviourExamples.

Import FunctionTree.

Lemma MultOperator_Differentiate_product_rule_term_witness :
  In (MultOperator [(Symbol 2, true); (Symbol 1, true)], true)
     (terms_of (Differentiate differential (MultOperator x_times_y))).
Proof.
  exact (@MultOperator_Differentiate_product_rule_term differential
           x_times_y 0 (Symbol 0) eq_refl eq_refl eq_refl).
Defined.

Lemma SumOperator_Differentiate_skips_numbers_witness :
  SumOperator_Differentiate differential
    [(make_Number 2, true); (Symbol 0, false)]
  = SumOperator_Differentiate
      (fun n => match n with Number _ => Symbol 9 | _ => differential n end)
      [(make_Number 2, true); (Symbol 0, false)].
Proof.
  apply (@SumOperator_Differentiate_skips_numbers differential
           (fun n => match n with Number _ => Symbol 9 | _ => differential n end)
           [(make_Number 2, true); (Symbol 0, false)]).
  intros [value | name | children_ | children_ | child_ exponent_] H;
    [discriminate H | reflexivity ..].
Defined.

Lemma constant_product_leaves_empty_sum_witness :
  Differentiate differential (SumOperator [(MultOperator two_times_three, true)])
  = SumOperator [(SumOperator [], true)].
Proof.
  apply (@constant_product_leaves_empty_sum differential two_times_three true).
  repeat constructor.
Defined.

Lemma SumOperator_Degree_is_maximum_witness :
  (Degree degree_in_x (IntegerPowerOperator (Symbol 0) 2)
   <= SumOperator_Degree (Degree degree_in_x)
        [(IntegerPowerOperator (Symbol 0) 2, true); (Symbol 2, true)])%Z.
Proof.
  assert (Hpos : forall c,
            In c [(IntegerPowerOperator (Symbol 0) 2, true); (Symbol 2, true)] ->
            (0 <= Degree degree_in_x (fst c))%Z).
  { intros c [<- | [<- | []]]; vm_compute; discriminate. }
  destruct (@SumOperator_Degree_is_maximum (Degree degree_in_x) _ Hpos)
    as (_ & Hub & _).
  apply (Hub (IntegerPowerOperator (Symbol 0) 2, true)). now left.
Defined.

Lemma SumOperator_Degree_first_negative_witness :
  SumOperator_Degree (fun n => match n with Symbol 1 => (-1)%Z | _ => 3%Z end)
    ([(Symbol 0, true)] ++ (Symbol 1, false) :: [(Symbol 2, true)])
  = (-1)%Z.
Proof.
  apply (@SumOperator_Degree_first_negative
           (fun n => match n with Symbol 1 => (-1)%Z | _ => 3%Z end)
           [(Symbol 0, true)] [(Symbol 2, true)] (Symbol 1) false).
  - intros c [<- | []]. vm_compute. discriminate.
  - reflexivity.
Defined.

Lemma Degree_negative_iff_leaf_witness :
  (Degree degree_in_x x_squared_plus_y < 0)%Z
  <-> Exists (fun l => (degree_in_x l < 0)%Z) (leaves x_squared_plus_y).
Proof.
  apply (@Degree_negative_iff_leaf degree_in_x x_squared_plus_y).
  - repeat constructor; discriminate.
  - repeat constructor; discriminate.
Defined.

End TreeBehaviourExamples.
